(** * indian_erp: licensing, authentication and permission core

    A shallow embedding of the license-enforcement engine
    (src/license/license_manager.py, src/license/machine_fingerprint.py),
    of the login procedure (src/core/auth.py) and of the permission gate
    (src/core/permissions.py, src/database/models.py), together with the
    part of the SQLite schema they rely on (src/database/db_init.py).

    Conventions of the embedding.
    - A Python [str] is a Rocq [string] whose characters are the code
      points of the text, so that [len] is [String.length]; the model covers
      text of code points below 256.  [str.encode()] is UTF-8.
    - A date is its proleptic Gregorian day number ([date.toordinal()]), an
      integer from [date_min] to [date_max]; date comparison is integer
      comparison, and [date + timedelta(days=n)] is integer addition that
      raises [OverflowError] when it leaves that range.
    - The table of a state is the table as the process's one connection
      sees it, pending statements included.
    - Code that raises is a computation in a state-and-exception monad: the
      state reached when the exception is raised is kept, as in Python. *)

From Stdlib Require Import ZArith NArith String Ascii List Bool Lia.
From stdpp Require Import gmap strings list.

Local Open Scope string_scope.
Local Open Scope list_scope.

(** ** Python string helpers *)

Module PyStr.

Definition chars (s : string) : list ascii := list_ascii_of_string s.
Definition of_chars (l : list ascii) : string := string_of_list_ascii l.

(** [sep.join(parts)] *)
Fixpoint join (sep : string) (parts : list string) : string :=
  match parts with
  | [] => ""
  | [p] => p
  | p :: rest => p +:+ sep +:+ join sep rest
  end.

(** [s[:n]] *)
Fixpoint prefix (n : nat) (s : string) : string :=
  match n, s with
  | O, _ => ""
  | S _, EmptyString => ""
  | S n', String c s' => String c (prefix n' s')
  end.

(** [s[n:]] *)
Fixpoint drop_prefix (n : nat) (s : string) : string :=
  match n, s with
  | O, _ => s
  | S _, EmptyString => ""
  | S n', String _ s' => drop_prefix n' s'
  end.

(** [s[i:j]] for [0 <= i <= j] *)
Definition slice (i j : nat) (s : string) : string :=
  prefix (j - i) (drop_prefix i s).

(** The capital of a character whose capital is one character: a..z
    and the letters of code points 224 to 254 (247, the division sign, is
    none) move down by 32.  The micro sign (181) and y with diaeresis
    (255) have their capitals above 255, out of the text modelled; they are
    kept, and stand for them: one character that is no letter A..Z, no
    digit, no hyphen and no white space. *)
Definition upper_letter (c : ascii) : ascii :=
  let n := nat_of_ascii c in
  if ((97 <=? n)%nat && (n <=? 122)%nat)
     || ((224 <=? n)%nat && (n <=? 254)%nat && negb (n =? 247)%nat)
  then ascii_of_nat (n - 32) else c.

(** [c.upper()] for one character: sharp s (223) becomes two, "SS". *)
Definition upper_char (c : ascii) : string :=
  if (nat_of_ascii c =? 223)%nat then "SS" else String (upper_letter c) "".

(** [s.upper()] *)
Fixpoint upper (s : string) : string :=
  match s with
  | EmptyString => ""
  | String c s' => upper_char c +:+ upper s'
  end.

(** [s.replace(c, '')] for a one-character [c] *)
Fixpoint remove_char (c : ascii) (s : string) : string :=
  match s with
  | EmptyString => ""
  | String d s' =>
      if Ascii.eqb c d then remove_char c s' else String d (remove_char c s')
  end.

(** The characters [str.strip()] removes: 9 to 13, 28 to 32, next line
    (133) and no-break space (160). *)
Definition is_space (c : ascii) : bool :=
  let n := nat_of_ascii c in
  ((9 <=? n)%nat && (n <=? 13)%nat) || ((28 <=? n)%nat && (n <=? 32)%nat)
  || (n =? 133)%nat || (n =? 160)%nat.

Fixpoint lstrip (s : string) : string :=
  match s with
  | EmptyString => ""
  | String c s' => if is_space c then lstrip s' else s
  end.

Definition rstrip (s : string) : string :=
  of_chars (rev (chars (lstrip (of_chars (rev (chars s)))))).

(** [s.strip()] *)
Definition strip (s : string) : string := rstrip (lstrip s).

(** [s.split(sep)] for a one-character separator: never empty. *)
Fixpoint split_on (sep : ascii) (s : string) : list string :=
  match s with
  | EmptyString => [""]
  | String c s' =>
      if Ascii.eqb c sep then "" :: split_on sep s'
      else match split_on sep s' with
           | [] => [String c ""]
           | w :: ws => String c w :: ws
           end
  end.

(** Python truthiness of a string. *)
Definition nonempty (s : string) : bool :=
  match s with EmptyString => false | _ => true end.

Definition is_hex_char (c : ascii) : bool :=
  let n := nat_of_ascii c in
  ((48 <=? n)%nat && (n <=? 57)%nat) || ((97 <=? n)%nat && (n <=? 102)%nat).

Definition is_hex (s : string) : bool := forallb is_hex_char (chars s).

(** [str(n)] for a non-negative integer. *)
Definition digit_char (d : N) : ascii := ascii_of_N (48 + d).

Fixpoint dec_digits (fuel : nat) (n : N) (acc : string) : string :=
  match fuel with
  | O => acc
  | S fuel' =>
      let acc' := String (digit_char (n mod 10)) acc in
      if (n <? 10)%N then acc' else dec_digits fuel' (n / 10) acc'
  end.

Definition str_of_N (n : N) : string := dec_digits (S (N.size_nat n)) n "".

(** ['%0<width>X' % n]: upper-case hexadecimal, zero-padded. *)
Definition hex_upper_char (d : N) : ascii :=
  if (d <? 10)%N then ascii_of_N (48 + d) else ascii_of_N (55 + d).

Fixpoint hex_upper_digits (fuel : nat) (n : N) (acc : string) : string :=
  match fuel with
  | O => acc
  | S fuel' =>
      let acc' := String (hex_upper_char (n mod 16)) acc in
      if (n <? 16)%N then acc' else hex_upper_digits fuel' (n / 16) acc'
  end.

Fixpoint zero_pad (k : nat) (s : string) : string :=
  match k with
  | O => s
  | S k' => String "0" (zero_pad k' s)
  end.

Definition format_0X (width : nat) (n : N) : string :=
  let d := hex_upper_digits (S (N.size_nat n)) n "" in
  zero_pad (width - String.length d) d.

End PyStr.

(** ** SHA-256 (FIPS 180-4), as [hashlib.sha256(data).hexdigest()] *)

Module Sha256.

Local Open Scope Z_scope.

Definition mask32 : Z := 0xFFFFFFFF.
Definition w32 (x : Z) : Z := Z.land x mask32.
Definition add32 (x y : Z) : Z := w32 (x + y).
Definition rotr (n x : Z) : Z :=
  Z.lor (Z.shiftr x n) (w32 (Z.shiftl x (32 - n))).
Definition not32 (x : Z) : Z := Z.lxor x mask32.

Definition Ch (x y z : Z) : Z := Z.lxor (Z.land x y) (Z.land (not32 x) z).
Definition Maj (x y z : Z) : Z :=
  Z.lxor (Z.lxor (Z.land x y) (Z.land x z)) (Z.land y z).
Definition Sigma0 (x : Z) : Z := Z.lxor (Z.lxor (rotr 2 x) (rotr 13 x)) (rotr 22 x).
Definition Sigma1 (x : Z) : Z := Z.lxor (Z.lxor (rotr 6 x) (rotr 11 x)) (rotr 25 x).
Definition sigma0 (x : Z) : Z := Z.lxor (Z.lxor (rotr 7 x) (rotr 18 x)) (Z.shiftr x 3).
Definition sigma1 (x : Z) : Z := Z.lxor (Z.lxor (rotr 17 x) (rotr 19 x)) (Z.shiftr x 10).

(** The round constants: the first 32 bits of the fractional parts of the
    cube roots of the first 64 primes. *)
Definition first_primes : list Z :=
  [2; 3; 5; 7; 11; 13; 17; 19; 23; 29; 31; 37; 41; 43; 47; 53; 59; 61; 67; 71;
   73; 79; 83; 89; 97; 101; 103; 107; 109; 113; 127; 131; 137; 139; 149; 151;
   157; 163; 167; 173; 179; 181; 191; 193; 197; 199; 211; 223; 227; 229; 233;
   239; 241; 251; 257; 263; 269; 271; 277; 281; 283; 293; 307; 311].

(** The integer cube root of [x], found bit by bit below [2^bits]. *)
Fixpoint cube_root (bits : nat) (x acc : Z) : Z :=
  match bits with
  | O => acc
  | S bits' =>
      let try := acc + 2 ^ Z.of_nat bits' in
      if try * try * try <=? x then cube_root bits' x try
      else cube_root bits' x acc
  end.

Definition K : list Z :=
  Eval vm_compute in
    map (fun p => w32 (cube_root 36 (p * 2 ^ 96) 0)) first_primes.

(** The eight working variables / the chaining value. *)
Record regs := Regs { ra : Z; rb : Z; rc : Z; rd : Z; re : Z; rf : Z; rg : Z; rh : Z }.

Definition H0 : regs :=
  Regs 0x6a09e667 0xbb67ae85 0x3c6ef372 0xa54ff53a
       0x510e527f 0x9b05688c 0x1f83d9ab 0x5be0cd19.

(** [s.encode()]: one byte for a code point below 128, two for the
    others. *)
Definition bytes_of (s : string) : list Z :=
  flat_map (fun c => let n := Z.of_N (N_of_ascii c) in
                     if n <? 128 then [n] else [192 + n / 64; 128 + n mod 64])
           (PyStr.chars s).

(** Big-endian bytes of [x], [n] of them. *)
Fixpoint be_bytes (n : nat) (x : Z) : list Z :=
  match n with
  | O => []
  | S n' => Z.land (Z.shiftr x (8 * Z.of_nat n')) 0xFF :: be_bytes n' x
  end.

Definition pad (msg : list Z) : list Z :=
  let len := Z.of_nat (length msg) in
  let zeros := Z.to_nat ((55 - len) mod 64) in
  msg ++ [0x80] ++ repeat 0 zeros ++ be_bytes 8 (8 * len).

Fixpoint words_of (fuel : nat) (bs : list Z) : list Z :=
  match fuel, bs with
  | S fuel', b0 :: b1 :: b2 :: b3 :: rest =>
      (b0 * 16777216 + b1 * 65536 + b2 * 256 + b3) :: words_of fuel' rest
  | _, _ => []
  end.

(** Message schedule; [recent] holds the words produced so far, newest
    first. *)
Fixpoint extend (n : nat) (recent : list Z) : list Z :=
  match n with
  | O => recent
  | S n' =>
      let w := add32 (add32 (sigma1 (nth 1 recent 0)) (nth 6 recent 0))
                     (add32 (sigma0 (nth 14 recent 0)) (nth 15 recent 0)) in
      extend n' (w :: recent)
  end.

Definition schedule (block : list Z) : list Z := rev (extend 48 (rev block)).

Definition round (r : regs) (kw : Z * Z) : regs :=
  let t1 := add32 (add32 (add32 (rh r) (Sigma1 (re r))) (Ch (re r) (rf r) (rg r)))
                  (add32 (fst kw) (snd kw)) in
  let t2 := add32 (Sigma0 (ra r)) (Maj (ra r) (rb r) (rc r)) in
  Regs (add32 t1 t2) (ra r) (rb r) (rc r) (add32 (rd r) t1) (re r) (rf r) (rg r).

Definition compress (h : regs) (block : list Z) : regs :=
  let r := fold_left round (combine K (schedule block)) h in
  Regs (add32 (ra h) (ra r)) (add32 (rb h) (rb r)) (add32 (rc h) (rc r))
       (add32 (rd h) (rd r)) (add32 (re h) (re r)) (add32 (rf h) (rf r))
       (add32 (rg h) (rg r)) (add32 (rh h) (rh r)).

Fixpoint blocks (fuel : nat) (ws : list Z) (h : regs) : regs :=
  match fuel, ws with
  | S fuel', _ :: _ => blocks fuel' (skipn 16 ws) (compress h (firstn 16 ws))
  | _, _ => h
  end.

Definition digest (msg : list Z) : regs :=
  let bs := pad msg in
  let ws := words_of (length bs) bs in
  blocks (length ws) ws H0.

Definition hex_char (d : Z) : ascii :=
  if d <? 10 then ascii_of_N (Z.to_N (48 + d)) else ascii_of_N (Z.to_N (87 + d)).

Definition nibble (x : Z) (i : Z) : ascii := hex_char (Z.land (Z.shiftr x (4 * i)) 0xF).

(** Eight lower-case hexadecimal digits of a 32-bit word. *)
Definition hex8 (x : Z) : string :=
  String (nibble x 7) (String (nibble x 6) (String (nibble x 5) (String (nibble x 4)
  (String (nibble x 3) (String (nibble x 2) (String (nibble x 1) (String (nibble x 0) ""))))))).

Definition hexdigest_of (r : regs) : string :=
  hex8 (ra r) +:+ hex8 (rb r) +:+ hex8 (rc r) +:+ hex8 (rd r) +:+
  hex8 (re r) +:+ hex8 (rf r) +:+ hex8 (rg r) +:+ hex8 (rh r).

(** [hashlib.sha256(s.encode()).hexdigest()] *)
Definition hexdigest (s : string) : string := hexdigest_of (digest (bytes_of s)).

End Sha256.

(** ** The host, as the fingerprint code reads it *)

Record host := Host {
  node : string;                   (* platform.node() *)
  machine : string;                (* platform.machine() *)
  processor : string;              (* platform.processor() *)
  getnode : N;                     (* uuid.getnode() *)
  system : string;                 (* platform.system() *)
  (* stdout of subprocess.run(['wmic', <class>, 'get', <property>], ...),
     [None] when the call raises (no such program, timeout) *)
  wmic_cpu : option string;
  wmic_diskdrive : option string;
  wmic_baseboard : option string
}.

(** ** license_manager.py: class MachineFingerprint *)

Module MachineFingerprint.

Definition generate (h : host) : string :=
  let components :=
    [node h; machine h; processor h; PyStr.str_of_N (getnode h)] in
  let fingerprint_str := PyStr.join "|" components in
  PyStr.prefix 32 (Sha256.hexdigest fingerprint_str).

Definition verify (h : host) (stored_fingerprint : string) : bool :=
  String.eqb (generate h) stored_fingerprint.

End MachineFingerprint.

(** ** machine_fingerprint.py *)

Definition get_mac_address (h : host) : string :=
  let mac := getnode h in
  let digits := PyStr.format_0X 12 mac in
  PyStr.join ":" (map (fun i => PyStr.slice i (i + 2) digits) [0; 2; 4; 6; 8; 10]%nat).

(** The shared body of the three wmic readers: the second line of the
    command's output, when the host is Windows, the call returns and the
    output has more than one line. *)
Definition wmic_second_line (h : host) (out : option string) : option string :=
  if String.eqb (system h) "Windows" then
    match out with
    | Some stdout =>
        let lines := PyStr.split_on "010" (PyStr.strip stdout) in
        if (1 <? length lines)%nat then Some (PyStr.strip (nth 1 lines "")) else None
    | None => None
    end
  else None.

Definition get_cpu_id (h : host) : string :=
  match wmic_second_line h (wmic_cpu h) with
  | Some line => line
  | None => processor h
  end.

Definition get_disk_serial (h : host) : string :=
  match wmic_second_line h (wmic_diskdrive h) with
  | Some line => line
  | None => ""
  end.

Definition get_motherboard_serial (h : host) : string :=
  match wmic_second_line h (wmic_baseboard h) with
  | Some line => line
  | None => ""
  end.

Definition generate_fingerprint (h : host) : string :=
  let components :=
    [node h; machine h; get_cpu_id h; get_mac_address h;
     get_disk_serial h; get_motherboard_serial h] in
  let valid_components :=
    filter (fun c => PyStr.nonempty (PyStr.strip c) = true) components in
  let fingerprint_source := PyStr.join "|" valid_components in
  PyStr.prefix 32 (Sha256.hexdigest fingerprint_source).

Definition verify_fingerprint (h : host) (stored : string) : bool :=
  let current := generate_fingerprint h in
  String.eqb current stored.

(** ** Python and SQLite values *)

(** What a cell of a table, a dict entry or an attribute holds.  A TEXT
    cell that its reader parses is represented by what the parse yields:
    [VDate d] is the text ['YYYY-MM-DD'] that [date.isoformat()] writes for
    the day [d] and that [strptime(.., '%Y-%m-%d')] reads back, [VJson l] is
    the text [json.dumps(l)] of a list of strings.  [VText s] is any other
    text; in a date or JSON column it is text the parser rejects. *)
Inductive value :=
| VNone                                   (* None, NULL *)
| VInt (n : Z)                            (* int; True and False are 1 and 0 *)
| VText (s : string)
| VDate (d : Z)
| VJson (l : list string)
| VJsonDict (kv : list (string * string)) (* json.dumps of a str -> str dict *)
| VList (l : list string)                 (* a Python list of str *)
| VDict (kv : list (string * string)).    (* a Python dict of str to str *)

#[global] Instance value_eq_dec : EqDecision value.
Proof. solve_decision. Defined.

(** A [sqlite3.Row] turned into a dict, and any other dict keyed by str. *)
Abbreviation row := (gmap string value).

(** [bool(v)] *)
Definition truthy (v : value) : bool :=
  match v with
  | VNone => false
  | VInt n => negb (n =? 0)%Z
  | VText s => PyStr.nonempty s
  | VDate _ | VJson _ | VJsonDict _ => true
  | VList l => match l with [] => false | _ => true end
  | VDict kv => match kv with [] => false | _ => true end
  end.

(** [d.get(k)] and [d.get(k, dflt)] *)
Definition get_or (d : row) (k : string) (dflt : value) : value :=
  match d !! k with
  | Some v => v
  | None => dflt
  end.
Definition get (d : row) (k : string) : value := get_or d k VNone.

(** [bool(d)] for a dict *)
Definition dict_truthy (d : row) : bool := negb (bool_decide (d = ∅)).

(** [s == v] and [v in l] for a str [s] and a list of str [l] *)
Definition str_eq (s : string) (v : value) : bool :=
  match v with VText t => String.eqb s t | _ => false end.

Definition value_in (v : value) (l : list string) : bool :=
  match v with VText s => existsb (String.eqb s) l | _ => false end.

(** ** Exceptions and the monad of Python procedures *)

Inductive exn :=
| LicenseError (msg : string)
| AuthenticationError (msg : string)
| OperationalError (msg : string)     (* sqlite3 *)
| IntegrityError (msg : string)       (* sqlite3 *)
| AttributeError (msg : string)
| KeyError (key : string)
| TypeError
| ValueError
| OverflowError                       (* datetime: out of range *)
| RequestException.                   (* requests: connection error, timeout *)

(** A procedure over a mutable state [S]: the exception or the result,
    and the state it leaves. *)
Definition py (S A : Type) : Type := S -> (exn + A) * S.

Definition ret {S A} (a : A) : py S A := fun s => (inr a, s).
Definition raise {S A} (e : exn) : py S A := fun s => (inl e, s).
Definition bind {S A B} (m : py S A) (k : A -> py S B) : py S B :=
  fun s => match m s with
           | (inl e, s') => (inl e, s')
           | (inr a, s') => k a s'
           end.
Definition gets {S A} (f : S -> A) : py S A := fun s => (inr (f s), s).
Definition modify {S} (f : S -> S) : py S unit := fun s => (inr tt, f s).
Definition lift {S A} (r : exn + A) : py S A := fun s => (r, s).

(** [try: m  except Exception: handler] *)
Definition try_except {S A} (m : py S A) (handler : exn -> py S A) : py S A :=
  fun s => match m s with
           | (inl e, s') => handler e s'
           | (inr a, s') => (inr a, s')
           end.

Notation "x <~ m ;; k" := (bind m (fun x => k))
  (at level 100, m at next level, right associativity).
Notation "m ;;; k" := (bind m (fun _ => k))
  (at level 100, right associativity).

(** [d[k]] *)
Definition getitem {S} (d : row) (k : string) : py S value :=
  match d !! k with
  | Some v => ret v
  | None => raise (KeyError k)
  end.

(** ** SQLite statements over a table held as the list of its rows *)

Module Sql.

(** [a = b] in a WHERE clause: NULL equals nothing. *)
Definition eq (a b : value) : bool :=
  match a, b with
  | VInt x, VInt y => (x =? y)%Z
  | VText x, VText y => String.eqb x y
  | _, _ => false
  end.

Definition has_column (columns : list string) (c : string) : bool :=
  existsb (String.eqb c) columns.

Definition assign (r : row) (sets : list (string * value)) : row :=
  fold_left (fun acc cv => <[fst cv := snd cv]> acc) sets r.

(** [UPDATE t SET c1 = v1, ... WHERE cond]: the statement is rejected
    when it names a column the table does not have. *)
Definition update (columns : list string) (sets : list (string * value))
           (cond : row -> bool) (rows : list row) : exn + list row :=
  match List.find (fun cv => negb (has_column columns (fst cv))) sets with
  | Some cv => inl (OperationalError ("no such column: " +:+ fst cv))
  | None => inr (map (fun r => if cond r then assign r sets else r) rows)
  end.

Definition row_id (r : row) : Z :=
  match r !! "id" with Some (VInt n) => n | _ => 0%Z end.

(** INTEGER PRIMARY KEY AUTOINCREMENT; no row is ever deleted. *)
Definition next_id (rows : list row) : Z :=
  (1 + fold_right Z.max 0 (map row_id rows))%Z.

(** [INSERT INTO t (c1, ...) VALUES (?, ...)] on a table with the given
    column defaults and UNIQUE columns. *)
Definition insert (table : string) (columns : list string) (defaults : row)
           (unique : list string) (record : list (string * value))
           (rows : list row) : exn + list row :=
  match List.find (fun cv => negb (has_column columns (fst cv))) record with
  | Some cv =>
      inl (OperationalError ("table " +:+ table +:+ " has no column named " +:+ fst cv))
  | None =>
      let r := <["id" := VInt (next_id rows)]> (assign defaults record) in
      match List.find (fun c => existsb (fun r' => eq (get r' c) (get r c)) rows) unique with
      | Some c =>
          inl (IntegrityError ("UNIQUE constraint failed: " +:+ table +:+ "." +:+ c))
      | None => inr (rows ++ [r])
      end
  end.

(** [ORDER BY id DESC LIMIT 1] *)
Definition last_by_id (rows : list row) : option row :=
  fold_left (fun best r =>
               match best with
               | None => Some r
               | Some b => if (row_id b <? row_id r)%Z then Some r else Some b
               end) rows None.

End Sql.

(** ** db_init.py: the tables the core reads and writes *)

Definition license_columns : list string :=
  ["id"; "license_key"; "machine_fingerprint"; "plan_type"; "max_users";
   "enabled_modules"; "activation_date"; "expiry_date"; "is_active";
   "grace_period_days"].

Definition license_defaults : row :=
  list_to_map [("license_key", VNone); ("machine_fingerprint", VNone);
               ("plan_type", VNone); ("max_users", VInt 1);
               ("enabled_modules", VNone); ("activation_date", VNone);
               ("expiry_date", VNone); ("is_active", VInt 1);
               ("grace_period_days", VInt 7)].

Definition license_unique : list string := ["license_key"].

(** ** license_manager.py: class LicensePlans *)

Module LicensePlans.

Definition BASIC : string := "BASIC".
Definition PRO : string := "PRO".
Definition ENTERPRISE : string := "ENTERPRISE".
Definition TRIAL : string := "TRIAL".

Record config := Config {
  name : string;
  max_users : Z;
  modules : list string;
  duration_days : Z;
  price : Z
}.

Definition PLAN_CONFIG : gmap string config :=
  list_to_map
    [(TRIAL, Config "Trial" 1 ["dashboard"; "billing"; "inventory"] 30 0);
     (BASIC, Config "Basic ERP" 1
               ["dashboard"; "billing"; "inventory"; "customers"] 365 4999);
     (PRO, Config "Pro ERP" 3
             ["dashboard"; "billing"; "inventory"; "customers"; "vendors";
              "accounts"; "reports"] 365 9999);
     (ENTERPRISE, Config "Enterprise ERP" 999
                    ["dashboard"; "billing"; "inventory"; "customers";
                     "vendors"; "accounts"; "reports"; "settings"; "users"]
                    365 24999)].

End LicensePlans.

(** ** license_manager.py: class LicenseManager *)

(** The license table as the manager's connection sees it, and the
    singleton's [_license] attribute. *)
Record lstate := LState {
  license_rows : list row;
  _license : option row
}.

(** What the revocation URL answers. *)
Record revocation_doc := RevocationDoc {
  revoked_keys : option (list string);      (* None: the key is absent *)
  revoked_machines : option (list string)
}.

Inductive http_reply :=
| RequestFailed                                   (* requests.get raises *)
| Response (status_code : Z) (json : option revocation_doc).
                                                  (* None: response.json() raises *)

(** [date.min.toordinal()] and [date.max.toordinal()]: 0001-01-01 and
    9999-12-31. *)
Definition date_min : Z := 1.
Definition date_max : Z := 3652059.

Definition is_date (d : Z) : bool := (date_min <=? d)%Z && (d <=? date_max)%Z.

Section LicenseManager.

(** The machine the program runs on and the value of [date.today()]. *)
Variable current : host.
Variable today : Z.

(** [json.loads] of a cell of the [enabled_modules] column *)
Definition json_loads (v : value) : exn + value :=
  match v with
  | VJson l => inr (VList l)
  | VJsonDict kv => inr (VDict kv)
  | VText _ | VDate _ => inl ValueError
  | _ => inl TypeError
  end.

Definition _load_license : py lstate unit :=
  fun st =>
    let active := List.filter (fun r => Sql.eq (get r "is_active") (VInt 1))
                              (license_rows st) in
    match Sql.last_by_id active with
    | Some r =>
        let lic :=
          if truthy (get r "enabled_modules") then
            match json_loads (get r "enabled_modules") with
            | inr l => <["modules_list" := l]> r
            | inl _ => <["modules_list" := VList []]> r
            end
          else r in
        (inr tt, LState (license_rows st) (Some lic))
    | None => (inr tt, st)
    end.

(** [not self._license] *)
Definition no_license (st : lstate) : bool :=
  match _license st with
  | Some lic => negb (dict_truthy lic)
  | None => true
  end.

Definition is_activated (st : lstate) : bool :=
  match _license st with Some _ => true | None => false end.

(** [datetime.strptime(str(v), '%Y-%m-%d').date()]: the text of a day
    outside the years 1 to 9999 is no date. *)
Definition strptime_date (v : value) : exn + Z :=
  match v with
  | VDate d => if is_date d then inr d else inl ValueError
  | _ => inl ValueError
  end.

(** [timedelta(days=v)] *)
Definition timedelta_days (v : value) : exn + Z :=
  match v with
  | VInt n => if (Z.abs n <=? 999999999)%Z then inr n else inl OverflowError
  | _ => inl TypeError
  end.

(** [d + timedelta(days=n)] *)
Definition date_add (d n : Z) : exn + Z :=
  if is_date (d + n) then inr (d + n)%Z else inl OverflowError.

Definition is_valid (st : lstate) : exn + bool :=
  match _license st with
  | None => inr false
  | Some lic =>
      if negb (dict_truthy lic) then inr false
      else if truthy (get lic "is_revoked") then inr false
      else if truthy (get lic "machine_fingerprint")
              && negb (str_eq (MachineFingerprint.generate current)
                              (get lic "machine_fingerprint"))
      then inr false
      else if truthy (get lic "expiry_date") then
        match strptime_date (get lic "expiry_date") with
        | inl e => inl e
        | inr expiry =>
            match timedelta_days (get_or lic "grace_period_days" (VInt 7)) with
            | inl e => inl e
            | inr grace =>
                match date_add expiry grace with
                | inl e => inl e
                | inr final_expiry =>
                    if (today >? final_expiry)%Z then inr false else inr true
                end
            end
        end
      else inr true
  end.

Definition revoke_license : py lstate unit :=
  fun st =>
    match _license st with
    | None => (inl TypeError, st)      (* None['id'] *)
    | Some lic =>
        match lic !! "id" with
        | None => (inl (KeyError "id"), st)
        | Some id =>
            match Sql.update license_columns
                    [("is_active", VInt 0); ("is_revoked", VInt 1)]
                    (fun r => Sql.eq (get r "id") id) (license_rows st) with
            | inl e => (inl e, st)
            | inr rows' => (inr tt, LState rows' None)
            end
        end
    end.

Definition check_remote_revocation (revocation_url : option string)
           (reply : http_reply) : py lstate bool :=
  fun st =>
    if no_license st || negb (is_activated st)
       || negb (truthy (default VNone (VText <$> revocation_url)))
    then (inr false, st)
    else
      try_except
        (match reply with
         | RequestFailed => raise RequestException
         | Response status_code json =>
             if (status_code =? 200)%Z then
               match json with
               | None => raise ValueError
               | Some data =>
                   let lic := default ∅ (_license st) in
                   current_key <~ getitem lic "license_key" ;;
                   let current_machine := get_or lic "machine_fingerprint" (VText "") in
                   if value_in current_key (default [] (revoked_keys data))
                      || value_in current_machine (default [] (revoked_machines data))
                   then revoke_license ;;; ret true
                   else ret false
               end
             else ret false
         end)
        (fun _ => ret false) st.

Definition plan_type (st : lstate) : value :=
  match _license st with
  | Some lic => if dict_truthy lic then get_or lic "plan_type" (VText "NONE") else VText "NONE"
  | None => VText "NONE"
  end.

Definition get_enabled_modules (st : lstate) : value :=
  if no_license st then VList []
  else get_or (default ∅ (_license st)) "modules_list" (VList []).

Definition is_module_enabled (module : string) (st : lstate) : exn + bool :=
  match is_valid st with
  | inl e => inl e
  | inr false => inr false
  | inr true =>
      match get_enabled_modules st with
      | VList l => inr (existsb (String.eqb module) l)
      | VDict kv => inr (existsb (String.eqb module) (map fst kv))
      | _ => inl TypeError
      end
  end.

(** The class defines no [is_expired] and no [days_remaining]: building
    the status dict stops at the third entry. *)
Definition get_status : py lstate row :=
  fun st =>
    match is_valid st with
    | inl e => (inl e, st)
    | inr _ =>
        (inl (AttributeError "'LicenseManager' object has no attribute 'is_expired'"), st)
    end.

(** [re.match(r'^[A-Z0-9]{4}-[A-Z0-9]{4}-[A-Z0-9]{4}-[A-Z0-9]{4}$', s)] *)
Definition is_AZ09 (c : ascii) : bool :=
  let n := nat_of_ascii c in
  ((65 <=? n)%nat && (n <=? 90)%nat) || ((48 <=? n)%nat && (n <=? 57)%nat).

(** [[A-Z0-9]{n}] at the head of [s]: what follows it. *)
Fixpoint re_class (n : nat) (s : string) : option string :=
  match n with
  | O => Some s
  | S n' =>
      match s with
      | String c s' => if is_AZ09 c then re_class n' s' else None
      | EmptyString => None
      end
  end.

Definition re_hyphen (s : string) : option string :=
  match s with
  | String c s' => if Ascii.eqb c "-" then Some s' else None
  | EmptyString => None
  end.

(** [$]: at the end of the string, or before a newline that ends it. *)
Definition re_dollar (s : string) : bool :=
  String.eqb s "" || String.eqb s (String "010" "").

Definition re_match_key (s : string) : bool :=
  match ((((((re_class 4 s ≫= re_hyphen) ≫= re_class 4) ≫= re_hyphen)
             ≫= re_class 4) ≫= re_hyphen) ≫= re_class 4) with
  | Some rest => re_dollar rest
  | None => false
  end.

Definition _validate_key_format (key : string) : bool :=
  re_match_key (PyStr.upper key).

Definition plan_codes : gmap string string :=
  list_to_map [("TRIA", LicensePlans.TRIAL); ("BASI", LicensePlans.BASIC);
               ("PROF", LicensePlans.PRO); ("ENTR", LicensePlans.ENTERPRISE)].

Definition _decode_license_key (key : string) : option row :=
  let key := PyStr.remove_char "-" (PyStr.upper key) in
  if negb (String.length key =? 16)%nat then None
  else
    let plan_code := PyStr.prefix 4 key in
    let plan := default LicensePlans.BASIC (plan_codes !! plan_code) in
    Some {["plan" := VText plan]}.

(** The "prepare license record" block of [activate].  The clock is taken
    to stand early enough for [date.today() + timedelta(days=...)] to be a
    date (before the year 9998 for every plan). *)
Definition prepare_record (machine_fp : string) (license_key : string)
           (license_data : row) : list (string * value) :=
  let plan := get_or license_data "plan" (VText LicensePlans.BASIC) in
  let plan_config :=
    default (LicensePlans.Config "Basic ERP" 1
               ["dashboard"; "billing"; "inventory"; "customers"] 365 4999)
            (match plan with
             | VText p => LicensePlans.PLAN_CONFIG !! p
             | _ => None
             end) in
  let expiry_date :=
    if truthy (get license_data "expiry") then get license_data "expiry"
    else VDate (today + LicensePlans.duration_days plan_config) in
  let modules :=
    get_or license_data "modules" (VJson (LicensePlans.modules plan_config)) in
  [("license_key", VText license_key);
   ("machine_fingerprint", VText machine_fp);
   ("plan_type", plan);
   ("max_users",
    get_or license_data "max_users" (VInt (LicensePlans.max_users plan_config)));
   ("enabled_modules", modules);
   ("activation_date", VDate today);
   ("expiry_date", expiry_date);
   ("is_active", VInt 1);
   ("grace_period_days", VInt 7)].

(** [activate], from its first line through [db.commit()].  The rows of
    the state it leaves are the table as the connection sees it: when the
    INSERT raises, the UPDATE before it stays pending on the connection and
    [db.commit()] is not reached. *)
Definition activate_commit (license_key : string) : py lstate unit :=
  if negb (_validate_key_format license_key)
  then raise (LicenseError "Invalid license key format")
  else
    match _decode_license_key license_key with
    | None => raise (LicenseError "Invalid or corrupted license key")
    | Some license_data =>
        if negb (dict_truthy license_data)
        then raise (LicenseError "Invalid or corrupted license key")
        else
          existing <~ gets (fun st =>
            List.find (fun r => Sql.eq (get r "license_key") (VText license_key))
                      (license_rows st)) ;;
          (match existing with
           | Some e =>
               if truthy (get e "machine_fingerprint")
                  && negb (str_eq (MachineFingerprint.generate current)
                                  (get e "machine_fingerprint"))
               then raise (LicenseError "License already activated on another machine")
               else ret tt
           | None => ret tt
           end) ;;;
          let machine_fp := MachineFingerprint.generate current in
          let license_record := prepare_record machine_fp license_key license_data in
          (fun st =>
             match Sql.update license_columns [("is_active", VInt 0)]
                              (fun _ => true) (license_rows st) with
             | inl e => (inl e, st)
             | inr rows' => (inr tt, LState rows' (_license st))
             end) ;;;
          (fun st =>
             match Sql.insert "license" license_columns license_defaults
                              license_unique license_record (license_rows st) with
             | inl e => (inl e, st)
             | inr rows' => (inr tt, LState rows' (_license st))
             end)
    end.

Definition activate (license_key : string) : py lstate row :=
  activate_commit license_key ;;;
  _load_license ;;;
  get_status.

End LicenseManager.

(** ** license_manager.py: issuing keys, trials, the module guard *)

Definition plan_codes_of_plan : gmap string string :=
  list_to_map [(LicensePlans.TRIAL, "TRIA"); (LicensePlans.BASIC, "BASI");
               (LicensePlans.PRO, "PROF"); (LicensePlans.ENTERPRISE, "ENTR")].

(** [generate_license_key(plan)]; [random_part] is what
    [''.join(random.choices(string.ascii_uppercase + string.digits, k=12))]
    yields. *)
Definition generate_license_key (random_part : string) (plan : string) : string :=
  let plan_code := default "BASI" (plan_codes_of_plan !! plan) in
  let key := plan_code +:+ random_part in
  PyStr.slice 0 4 key +:+ "-" +:+ PyStr.slice 4 8 key +:+ "-"
  +:+ PyStr.slice 8 12 key +:+ "-" +:+ PyStr.slice 12 16 key.

Definition start_trial (current : host) (today : Z) (random_part : string)
  : py lstate row :=
  let trial_key := generate_license_key random_part LicensePlans.TRIAL in
  activate current today trial_key.

(** The wrapper [require_module(module)] puts around a function [func]. *)
Definition require_module {A} (current : host) (today : Z) (module : string)
           (func : py lstate A) : py lstate A :=
  fun st =>
    match is_valid current today st with
    | inl e => (inl e, st)
    | inr false => (inl (LicenseError "License expired or invalid"), st)
    | inr true =>
        match is_module_enabled current today module st with
        | inl e => (inl e, st)
        | inr false =>
            (inl (LicenseError ("Module '" +:+ module
                                +:+ "' not included in your license plan")), st)
        | inr true => func st
        end
    end.

(** ** app.py: the start-up license check *)

Inductive screen := ShowLogin | ShowActivation.

Definition REVOCATION_URL : string := "https://example.com/api/revoked_licenses.json".




(** [ERPApplication.check_license]: the screen it shows. *)
Definition check_license (current : host) (today : Z) (reply : http_reply)
  : py lstate screen :=
  fun st =>
    let st1 :=
      match is_valid current today st with
      | inr true => snd (check_remote_revocation (Some REVOCATION_URL) reply st)
      | _ => st                 (* not valid, or the bare except swallows *)
      end in
    match is_valid current today st1 with
    | inl e => (inl e, st1)
    | inr true => (inr ShowLogin, st1)
    | inr false => (inr ShowActivation, st1)
    end.

(** ** db_init.py: users, roles, permissions, audit_logs *)

Definition users_columns : list string :=
  ["id"; "username"; "password_hash"; "full_name"; "email"; "phone";
   "role_id"; "is_active"; "last_login"; "created_at"].

Definition permissions_columns : list string :=
  ["id"; "role_id"; "module"; "can_view"; "can_create"; "can_edit";
   "can_delete"; "can_export"].

Definition audit_logs_columns : list string :=
  ["id"; "user_id"; "action"; "module"; "record_id"; "old_values";
   "new_values"; "created_at"].

Definition audit_logs_defaults : row :=
  list_to_map [("user_id", VNone); ("action", VNone); ("module", VNone);
               ("record_id", VNone); ("old_values", VNone);
               ("new_values", VNone); ("created_at", VNone)].

(** ** auth.py: class Session *)

Record Session := MkSession {
  user : option row;
  role_id : value;
  role_name : value;
  login_time : value
}.

Definition is_authenticated (s : Session) : bool :=
  match user s with Some _ => true | None => false end.

(** [Session.clear] *)
Definition clear : Session := MkSession None VNone VNone VNone.

(** The tables the authentication and permission code uses, and the
    process-wide session. *)
Record astate := AState {
  users : list row;
  roles : list row;
  permissions : list row;
  audit_logs : list row;
  session : Session
}.

(** ** models.py: User, Permission, AuditLog *)

Module User.

(** [SELECT u.*, r.name as role_name FROM users u JOIN roles r
     ON u.role_id = r.id WHERE u.username = ?], first row *)
Definition get_by_username (username : string) (st : astate) : option row :=
  head (omap (fun u =>
                if Sql.eq (get u "username") (VText username) then
                  match List.find (fun r => Sql.eq (get u "role_id") (get r "id"))
                                  (roles st) with
                  | Some r => Some (<["role_name" := get r "name"]> u)
                  | None => None
                  end
                else None)
             (users st)).

(** [SELECT * FROM users WHERE id = ?], first row *)
Definition get_by_id (id : value) (st : astate) : option row :=
  List.find (fun r => Sql.eq (get r "id") id) (users st).

(** [User.update(id, data)]: whether a row was updated. *)
Definition update (id : value) (data : list (string * value)) : py astate bool :=
  fun st =>
    match Sql.update users_columns data
                     (fun r => Sql.eq (get r "id") id) (users st) with
    | inl e => (inl e, st)
    | inr rows' =>
        (inr (existsb (fun r => Sql.eq (get r "id") id) (users st)),
         AState rows' (roles st) (permissions st) (audit_logs st) (session st))
    end.

(** [User.update(user_id, {'last_login': now})] *)
Definition update_last_login (now : string) (user_id : value) : py astate unit :=
  fun st =>
    match Sql.update users_columns [("last_login", VText now)]
                     (fun r => Sql.eq (get r "id") user_id) (users st) with
    | inl e => (inl e, st)
    | inr rows' =>
        (inr tt, AState rows' (roles st) (permissions st) (audit_logs st) (session st))
    end.

End User.

Module Permission.

(** [SELECT {action} FROM permissions WHERE role_id = ? AND module = ?]:
    the action is spliced into the statement as a column name; a name
    that is no column of the table makes SQLite reject the statement.  The
    model covers actions that are names, as the callers in the program
    pass (the five flags); it does not follow SQLite in reading other text
    as an expression, nor in matching column names without regard to
    case. *)
Definition check_permission (role_id : value) (module action : string)
           (st : astate) : exn + bool :=
  if negb (Sql.has_column permissions_columns action)
  then inl (OperationalError ("no such column: " +:+ action))
  else
    match List.find (fun r => Sql.eq (get r "role_id") role_id
                              && Sql.eq (get r "module") (VText module))
                    (permissions st) with
    | Some r => inr (truthy (get r action))
    | None => inr false
    end.

End Permission.

Module AuditLog.

(** [AuditLog.log(user_id, action, module, new_values=...)]; [now] is
    the text of [datetime.now().isoformat()]. *)
Definition log (now : string) (user_id : value) (action module : string)
           (new_values : list (string * string)) : py astate unit :=
  fun st =>
    let data :=
      [("user_id", user_id); ("action", VText action); ("module", VText module);
       ("record_id", VNone); ("old_values", VNone);
       ("new_values", match new_values with [] => VNone | _ => VJsonDict new_values end);
       ("created_at", VText now)] in
    match Sql.insert "audit_logs" audit_logs_columns audit_logs_defaults []
                     data (audit_logs st) with
    | inl e => (inl e, st)
    | inr rows' =>
        (inr tt, AState (users st) (roles st) (permissions st) rows' (session st))
    end.

End AuditLog.

(** ** auth.py: login, logout *)

Section Auth.

(** [bcrypt.checkpw(password, hash)]: the verdict, or the exception it
    raises on a malformed hash. *)
Variable checkpw : string -> string -> exn + bool.
(** The text of [datetime.now().isoformat()]. *)
Variable now : string.

Definition verify_password (password : string) (password_hash : value)
  : py astate bool :=
  match password_hash with
  | VText h => lift (checkpw password h)
  | _ => raise (AttributeError "object has no attribute 'encode'")
  end.

Definition login (username password : string) : py astate row :=
  found <~ gets (User.get_by_username username) ;;
  match found with
  | None =>
      AuditLog.log now VNone "LOGIN_FAILED" "auth"
                   [("username", username); ("reason", "user_not_found")] ;;;
      raise (AuthenticationError "Invalid username or password")
  | Some user =>
      if negb (dict_truthy user) then
        AuditLog.log now VNone "LOGIN_FAILED" "auth"
                     [("username", username); ("reason", "user_not_found")] ;;;
        raise (AuthenticationError "Invalid username or password")
      else if negb (truthy (get_or user "is_active" (VInt 1))) then
        id <~ getitem user "id" ;;
        AuditLog.log now id "LOGIN_FAILED" "auth" [("reason", "account_disabled")] ;;;
        raise (AuthenticationError "Account is disabled. Contact administrator.")
      else
        password_hash <~ getitem user "password_hash" ;;
        ok <~ verify_password password password_hash ;;
        if negb ok then
          id <~ getitem user "id" ;;
          AuditLog.log now id "LOGIN_FAILED" "auth" [("reason", "invalid_password")] ;;;
          raise (AuthenticationError "Invalid username or password")
        else
          rid <~ getitem user "role_id" ;;
          modify (fun st =>
                    AState (users st) (roles st) (permissions st) (audit_logs st)
                           (MkSession (Some user) rid
                                      (get_or user "role_name" (VText "Unknown"))
                                      (VText now))) ;;;
          id <~ getitem user "id" ;;
          User.update_last_login now id ;;;
          id' <~ getitem user "id" ;;
          AuditLog.log now id' "LOGIN_SUCCESS" "auth" [] ;;;
          ret user
  end.

Definition logout : py astate unit :=
  s <~ gets session ;;
  (match user s with
   | Some u => id <~ getitem u "id" ;; AuditLog.log now id "LOGOUT" "auth" []
   | None => ret tt
   end) ;;;
  modify (fun st => AState (users st) (roles st) (permissions st) (audit_logs st) clear).

(** [bcrypt.hashpw(password, bcrypt.gensalt())] *)
Variable hashpw : string -> string.

Definition hash_password (password : string) : string := hashpw password.

Definition change_password (user_id : value) (old_password new_password : string)
  : py astate bool :=
  found <~ gets (User.get_by_id user_id) ;;
  match found with
  | None => raise (AuthenticationError "User not found")
  | Some user =>
      if negb (dict_truthy user) then raise (AuthenticationError "User not found")
      else
        password_hash <~ getitem user "password_hash" ;;
        ok <~ verify_password old_password password_hash ;;
        if negb ok then raise (AuthenticationError "Current password is incorrect")
        else if (String.length new_password <? 6)%nat
        then raise (AuthenticationError "New password must be at least 6 characters")
        else
          let new_hash := hash_password new_password in
          User.update user_id [("password_hash", VText new_hash)] ;;;
          AuditLog.log now user_id "PASSWORD_CHANGED" "auth" [] ;;;
          ret true
  end.

End Auth.

(** The wrapper [require_auth(func)] puts around a function [func]. *)
Definition require_auth {A} (func : py astate A) : py astate A :=
  s <~ gets session ;;
  if negb (is_authenticated s)
  then raise (AuthenticationError "Authentication required")
  else func.

(** ** permissions.py *)

Definition ACTIONS : list string :=
  ["can_view"; "can_create"; "can_edit"; "can_delete"; "can_export"].

Definition check_permission (module action : string) (st : astate) : exn + bool :=
  let session := session st in
  if negb (is_authenticated session) then inr false
  else if str_eq "Admin" (role_name session) then inr true
  else Permission.check_permission (role_id session) module action st.

Definition MODULES : list string :=
  ["dashboard"; "billing"; "inventory"; "customers"; "vendors"; "accounts";
   "reports"; "settings"; "users"].

(** [d[k] = v] on a dict held as the list of its items, in insertion
    order: an existing key keeps its place. *)
Fixpoint dict_set {V} (k : value) (v : V) (d : list (value * V)) : list (value * V) :=
  match d with
  | [] => [(k, v)]
  | (k', v') :: d' =>
      if bool_decide (k' = k) then (k, v) :: d' else (k', v') :: dict_set k v d'
  end.

(** The five flags of a permission row, as [get_user_permissions] reads
    them. *)
Definition flags_of (perm : row) : gmap string bool :=
  list_to_map (map (fun a => (a, truthy (get perm a))) ACTIONS).

(** [Permission.get_by_role(role_id)] *)
Definition get_by_role (role_id : value) (st : astate) : list row :=
  List.filter (fun r => Sql.eq (get r "role_id") role_id) (permissions st).

(** [get_user_permissions()], for the role of the session *)
Definition get_user_permissions (st : astate) : list (value * gmap string bool) :=
  if negb (is_authenticated (session st)) then []
  else
    fold_left (fun result perm => dict_set (get perm "module") (flags_of perm) result)
              (get_by_role (role_id (session st)) st) [].

Definition get_accessible_modules (st : astate) : list value :=
  if negb (is_authenticated (session st)) then []
  else if str_eq "Admin" (role_name (session st)) then map VText MODULES
  else
    map fst (List.filter (fun mp => default false (snd mp !! "can_view"))
                         (get_user_permissions st)).

(** The row that [INSERT OR REPLACE INTO permissions (role_id, module,
    can_view, ...) VALUES (...)] writes; [perms.get(action, False)] is bound
    as 1 or 0. *)
Definition permission_row (id : Z) (role_id : value) (module : string)
           (perms : gmap string bool) : row :=
  list_to_map
    (("id", VInt id) :: ("role_id", role_id) :: ("module", VText module)
     :: map (fun a => (a, VInt (if default false (perms !! a) then 1 else 0))) ACTIONS).

(** Whether a permission row is the one of a role and a module: the
    UNIQUE(role_id, module) key. *)
Definition same_permission_key (role_id : value) (module : string) (r : row) : bool :=
  Sql.eq (get r "role_id") role_id && Sql.eq (get r "module") (VText module).

(** One [INSERT OR REPLACE]: the role must exist (FOREIGN KEY), a row with
    the same role and module is deleted, and the new row gets the next
    id. *)
Definition insert_or_replace_permission (role_id : value) (module : string)
           (perms : gmap string bool) : py astate unit :=
  fun st =>
    match role_id with
    | VNone => (inl (IntegrityError "NOT NULL constraint failed: permissions.role_id"), st)
    | _ =>
        if existsb (fun role => Sql.eq (get role "id") role_id) (roles st) then
          let kept := List.filter (fun r => negb (same_permission_key role_id module r))
                                  (permissions st) in
          let new := permission_row (Sql.next_id (permissions st)) role_id module perms in
          (inr tt, AState (users st) (roles st) (kept ++ [new]) (audit_logs st) (session st))
        else (inl (IntegrityError "FOREIGN KEY constraint failed"), st)
    end.

(** [setup_role_permissions(role_id, permissions)]; the dict is given by
    its items. *)
Fixpoint setup_role_permissions (role_id : value)
         (permissions : list (string * gmap string bool)) : py astate unit :=
  match permissions with
  | [] => ret tt
  | (module, perms) :: rest =>
      insert_or_replace_permission role_id module perms ;;;
      setup_role_permissions role_id rest
  end.

(** ** Notions the properties are stated with *)

(** What [UPDATE license SET is_active = 0] makes of a row. *)
Definition deactivated (r : row) : row := <["is_active" := VInt 0]> r.

(** The row [activate] inserts for a decoded key. *)
Definition new_license_row (current : host) (today : Z) (key : string)
           (license_data : row) (rows : list row) : row :=
  <["id" := VInt (Sql.next_id rows)]>
    (Sql.assign license_defaults
       (prepare_record today (MachineFingerprint.generate current) key license_data)).

(** The test [activate] makes on a prior record of the key. *)
Definition bound_elsewhere (current : host) (e : row) : bool :=
  truthy (get e "machine_fingerprint")
  && negb (str_eq (MachineFingerprint.generate current) (get e "machine_fingerprint")).

(** [SELECT ... FROM license WHERE license_key = ?], first row *)
Definition find_key (key : string) (rows : list row) : option row :=
  List.find (fun r => Sql.eq (get r "license_key") (VText key)) rows.

(** Whether the UNIQUE constraint on [license_key] rejects the key. *)
Definition key_taken (key : string) (rows : list row) : bool :=
  existsb (fun r => Sql.eq (get r "license_key") (VText key)) rows.

(** The key and the module list of the PRO scenario. *)
Definition pro_key : string := "PROF-AB12-CD34-EF56".

(** A record counts as active when its [is_active] cell is true. *)
Definition row_active (r : row) : bool := truthy (get r "is_active").

Definition count_active (rows : list row) : nat :=
  length (List.filter row_active rows).

(** The key shape of the specification: four groups of four letters or
    digits, in either case, separated by hyphens. *)
(** Text of ASCII characters only. *)
Definition is_ascii (s : string) : bool :=
  forallb (fun c => (nat_of_ascii c <? 128)%nat) (PyStr.chars s).

(** The capitals of a text character by character: [s.upper()] for a text
    without sharp s. *)
Fixpoint upper_letters (s : string) : string :=
  match s with
  | EmptyString => ""
  | String c s' => String (PyStr.upper_letter c) (upper_letters s')
  end.

Definition is_alnum (c : ascii) : bool :=
  let n := nat_of_ascii c in
  ((48 <=? n)%nat && (n <=? 57)%nat) || ((65 <=? n)%nat && (n <=? 90)%nat)
  || ((97 <=? n)%nat && (n <=? 122)%nat).

Definition is_group (g : string) : bool :=
  (String.length g =? 4)%nat && forallb is_alnum (PyStr.chars g).

Definition key_shape (key : string) : bool :=
  match PyStr.split_on "-" key with
  | [g1; g2; g3; g4] => is_group g1 && is_group g2 && is_group g3 && is_group g4
  | _ => false
  end.

(** The plan code of a key: the first four characters of its normalised
    payload. *)
Definition plan_code_of (key : string) : string :=
  PyStr.prefix 4 (PyStr.remove_char "-" (PyStr.upper key)).

(** The plan a key decodes to and the configuration [activate] takes
    for it. *)
Definition plan_of_key (key : string) : string :=
  default LicensePlans.BASIC (plan_codes !! plan_code_of key).

Definition config_of_plan (plan : string) : LicensePlans.config :=
  default (LicensePlans.Config "Basic ERP" 1
             ["dashboard"; "billing"; "inventory"; "customers"] 365 4999)
          (LicensePlans.PLAN_CONFIG !! plan).

(** What the users table guarantees of its rows: an id, a text
    password hash and a role id (PRIMARY KEY and NOT NULL columns). *)
Definition user_row_wf (u : row) : Prop :=
  is_Some (u !! "id")
  /\ (exists h, u !! "password_hash" = Some (VText h))
  /\ is_Some (u !! "role_id").

Definition users_wf (st : astate) : Prop := Forall user_row_wf (users st).

(** What [UPDATE users SET password_hash = ? WHERE id = ?] makes of a row. *)
Definition with_password_hash (id : value) (h : string) (r : row) : row :=
  if Sql.eq (get r "id") id then <["password_hash" := VText h]> r else r.

(** What the schema and [activate], the only writer of the table,
    guarantee of the license table: keys are unique, and every stored key
    passed the format check and the decoder. *)
Definition key_of (r : row) : value := get r "license_key".

Definition store_wf (rows : list row) : Prop :=
  NoDup (map key_of rows)
  /\ Forall (fun r => exists k, key_of r = VText k
                                /\ _validate_key_format k = true
                                /\ is_Some (_decode_license_key k)) rows.

(** [n] calls of [activate] in a row, on possibly different days and
    hosts, each of which got through its [db.commit()]. *)
Inductive activations : lstate -> nat -> lstate -> Prop :=
| activations_none st : activations st 0 st
| activations_more st n st' (current : host) (today : Z) (key : string) :
    fst (activate_commit current today key st) = inr tt ->
    activations (snd (activate current today key st)) n st' ->
    activations st (S n) st'.

(** ** Concrete inputs used by the examples below *)

Definition host_pc : host :=
  Host "pc" "x86_64" "" 1 "Linux" None None None.


(** A license bound to [host_pc], expiring on day 739365 with the default
    grace period. *)
Definition license_pc : row :=
  list_to_map [("id", VInt 1); ("license_key", VText "PROF-AB12-CD34-EF56");
               ("machine_fingerprint", VText "1c47565bafd031d3bf5118d599982f15");
               ("plan_type", VText "PRO"); ("expiry_date", VDate 739365);
               ("is_active", VInt 1); ("grace_period_days", VInt 7)].

(** A stand-in for [bcrypt.checkpw]: the hash of [p] is ["$2b$" ++ p]. *)
Definition toy_checkpw (password hash : string) : exn + bool :=
  inr (String.eqb ("$2b$" +:+ password) hash).

(** One administrator, one enabled and one disabled sales user. *)
Definition app_state : astate :=
  AState
    [list_to_map [("id", VInt 1); ("username", VText "admin");
                  ("password_hash", VText "$2b$admin123"); ("role_id", VInt 1);
                  ("is_active", VInt 1)];
     list_to_map [("id", VInt 2); ("username", VText "asha");
                  ("password_hash", VText "$2b$s3cret"); ("role_id", VInt 4);
                  ("is_active", VInt 1)];
     list_to_map [("id", VInt 3); ("username", VText "ravi");
                  ("password_hash", VText "$2b$pw"); ("role_id", VInt 4);
                  ("is_active", VInt 0)]]
    [list_to_map [("id", VInt 1); ("name", VText "Admin")];
     list_to_map [("id", VInt 4); ("name", VText "Sales")]]
    [list_to_map [("id", VInt 1); ("role_id", VInt 4); ("module", VText "billing");
                  ("can_view", VInt 1); ("can_create", VInt 1); ("can_edit", VInt 0);
                  ("can_delete", VInt 0); ("can_export", VInt 0)]]
    []
    clear.

Definition with_session (s : Session) (st : astate) : astate :=
  AState (users st) (roles st) (permissions st) (audit_logs st) s.

Definition admin_session : Session :=
  MkSession (Some {["id" := VInt 1]}) (VInt 1) (VText "Admin") (VText "2026-01-01T10:00:00").

Definition sales_session : Session :=
  MkSession (Some {["id" := VInt 2]}) (VInt 4) (VText "Sales") (VText "2026-01-01T10:00:00").


(** The state after the key PROF-AB12-CD34-EF56 is activated on [host_pc]
    on day 739000, on a fresh installation. *)
Definition activated_pc : lstate :=
  snd (activate host_pc 739000 "PROF-AB12-CD34-EF56" (LState [] None)).

(** A feed that lists that key. *)
Definition feed_listing_key : http_reply :=
  Response 200 (Some (RevocationDoc (Some ["PROF-AB12-CD34-EF56"]) (Some []))).

(** A second machine. *)
Definition host_laptop : host :=
  Host "laptop" "arm64" "Apple M1" 190070690681122 "Darwin" None None None.

(** A stand-in for [bcrypt.hashpw] that matches [toy_checkpw]. *)
Definition toy_hashpw (password : string) : string := "$2b$" +:+ password.

(** The five flags of a module in [DEFAULT_PERMISSIONS]. *)
Definition flags (can_view can_create can_edit can_delete can_export : bool)
  : gmap string bool :=
  list_to_map [("can_view", can_view); ("can_create", can_create);
               ("can_edit", can_edit); ("can_delete", can_delete);
               ("can_export", can_export)].

(** [DEFAULT_PERMISSIONS['Sales']], as the items of the dict. *)
Definition sales_permissions : list (string * gmap string bool) :=
  [("dashboard", flags true false false false false);
   ("billing", flags true true false false true);
   ("customers", flags true true true false true);
   ("inventory", flags true false false false false)].

(** The row of the role Sales in [app_state]. *)
Definition sales_role : row :=
  list_to_map [("id", VInt 4); ("name", VText "Sales")].

(** A license bound to [host_pc] that expires on 9999-12-31, the last
    day [datetime.date] has. *)
Definition license_last_date : row :=
  <["expiry_date" := VDate 3652059]> license_pc.

(** PROF-AB12-CD34-EF followed by sharp s, the character of code point
    223: its last group has three characters. *)
Definition sharp_s_key : string := "PROF-AB12-CD34-EF" +:+ String "223" "".
(** * Properties *)

(** The digest is never unfolded by simplification. *)
Arguments Sha256.hexdigest : simpl never.
Arguments MachineFingerprint.generate : simpl never.
Arguments generate_fingerprint : simpl never.

(** ** Library models against reference values *)

Example sha256_abc :
  Sha256.hexdigest "abc" = "ba7816bf8f01cfea414140de5dae2223b00361a396177a9cb410ff61f20015ad".
Proof. vm_compute. reflexivity. Qed.

Example sha256_empty :
  Sha256.hexdigest "" = "e3b0c44298fc1c149afbf4c8996fb92427ae41e4649b934ca495991b7852b855".
Proof. vm_compute. reflexivity. Qed.

Example sha256_two_blocks :
  Sha256.hexdigest "abcdbcdecdefdefgefghfghighijhijkijkljklmklmnlmnomnopnopq"
  = "248d6a61d20638b8e5c026930c3e6039a33ce45964ff2167f6ecedd419db06c1".
Proof. vm_compute. reflexivity. Qed.

Example str_of_N_ex : PyStr.str_of_N 281474976710655 = "281474976710655" /\ PyStr.str_of_N 0 = "0".
Proof. split; reflexivity. Qed.

Example format_0X_ex :
  PyStr.format_0X 12 1 = "000000000001" /\ PyStr.format_0X 12 281474976710655 = "FFFFFFFFFFFF"
  /\ PyStr.format_0X 12 4503599627370496 = "10000000000000".
Proof. repeat split; reflexivity. Qed.

Example strip_split_ex :
  PyStr.split_on "010" (PyStr.strip (String "010" ("a" +:+ String "010" ("b " +:+ String "010" ""))))
  = ["a"; "b"].
Proof. reflexivity. Qed.

Example generate_pc : MachineFingerprint.generate host_pc = "1c47565bafd031d3bf5118d599982f15".
Proof. vm_compute. reflexivity. Qed.

Example generate_fingerprint_pc : generate_fingerprint host_pc = "9f076bd01acc86a9612058c9f3bb34d9".
Proof. vm_compute. reflexivity. Qed.

(** ** Strings *)

Lemma length_append (a b : string) :
  String.length (a +:+ b) = (String.length a + String.length b)%nat.
Proof. induction a as [|c a IH]; simpl; [reflexivity | now rewrite IH]. Qed.

Lemma length_prefix (n : nat) (s : string) :
  String.length (PyStr.prefix n s) = Nat.min n (String.length s).
Proof.
  revert s; induction n as [|n IH]; intros [|c s]; simpl; try reflexivity.
  now rewrite IH.
Qed.

Lemma is_hex_cons (c : ascii) (s : string) :
  PyStr.is_hex (String c s) = PyStr.is_hex_char c && PyStr.is_hex s.
Proof. reflexivity. Qed.

Lemma is_hex_append (a b : string) :
  PyStr.is_hex a = true -> PyStr.is_hex b = true -> PyStr.is_hex (a +:+ b) = true.
Proof.
  intros Ha Hb; induction a as [|c a IH]; [exact Hb|].
  change (String c a +:+ b) with (String c (a +:+ b)).
  rewrite is_hex_cons in Ha |- *.
  apply andb_true_iff in Ha as [Hc Ha]. rewrite Hc; simpl. now apply IH.
Qed.

Lemma is_hex_prefix (n : nat) (s : string) :
  PyStr.is_hex s = true -> PyStr.is_hex (PyStr.prefix n s) = true.
Proof.
  revert s; induction n as [|n IH]; intros [|c s] H; try reflexivity.
  change (PyStr.prefix (S n) (String c s)) with (String c (PyStr.prefix n s)).
  rewrite is_hex_cons in H |- *.
  apply andb_true_iff in H as [Hc Hs]. rewrite Hc; simpl. now apply IH.
Qed.

(** ** The digest is 64 lower-case hexadecimal digits *)

Lemma hex_char_is_hex (d : Z) :
  (0 <= d < 16)%Z -> PyStr.is_hex_char (Sha256.hex_char d) = true.
Proof.
  intros Hd.
  assert (Hcases : (d = 0 \/ d = 1 \/ d = 2 \/ d = 3 \/ d = 4 \/ d = 5 \/ d = 6
                    \/ d = 7 \/ d = 8 \/ d = 9 \/ d = 10 \/ d = 11 \/ d = 12
                    \/ d = 13 \/ d = 14 \/ d = 15)%Z) by lia.
  repeat (destruct Hcases as [-> | Hcases]; [reflexivity|]).
  subst d; reflexivity.
Qed.

Lemma nibble_is_hex (x i : Z) : PyStr.is_hex_char (Sha256.nibble x i) = true.
Proof.
  unfold Sha256.nibble. apply hex_char_is_hex.
  change 15%Z with (Z.ones 4). rewrite Z.land_ones by lia.
  apply Z.mod_pos_bound. reflexivity.
Qed.

Lemma hex8_is_hex (x : Z) : PyStr.is_hex (Sha256.hex8 x) = true.
Proof.
  unfold Sha256.hex8. rewrite !is_hex_cons, !nibble_is_hex. reflexivity.
Qed.

Lemma hexdigest_length (s : string) : String.length (Sha256.hexdigest s) = 64%nat.
Proof.
  unfold Sha256.hexdigest, Sha256.hexdigest_of.
  rewrite !length_append. reflexivity.
Qed.

Lemma hexdigest_is_hex (s : string) : PyStr.is_hex (Sha256.hexdigest s) = true.
Proof.
  unfold Sha256.hexdigest, Sha256.hexdigest_of.
  repeat (apply is_hex_append; [apply hex8_is_hex|]). apply hex8_is_hex.
Qed.

(** ** Machine fingerprints *)

Lemma generate_length (h : host) :
  String.length (MachineFingerprint.generate h) = 32%nat.
Proof.
  unfold MachineFingerprint.generate.
  rewrite length_prefix, hexdigest_length. reflexivity.
Qed.

Lemma generate_fingerprint_length (h : host) :
  String.length (generate_fingerprint h) = 32%nat.
Proof.
  unfold generate_fingerprint.
  rewrite length_prefix, hexdigest_length. reflexivity.
Qed.

(** C8. On an unchanged machine [verify(generate())] is true: [generate]
    is a function of the host attributes it reads, its value is a
    hexadecimal string of at most 32 characters, and [verify] accepts a
    stored fingerprint exactly when it equals the recomputed one.  The same
    holds of [generate_fingerprint] and [verify_fingerprint]. *)
Theorem fingerprint_verify_generate (h : host) :
  MachineFingerprint.verify h (MachineFingerprint.generate h) = true
  /\ (forall h' : host,
         node h' = node h -> machine h' = machine h ->
         processor h' = processor h -> getnode h' = getnode h ->
         MachineFingerprint.generate h' = MachineFingerprint.generate h)
  /\ (String.length (MachineFingerprint.generate h) <= 32)%nat
  /\ PyStr.is_hex (MachineFingerprint.generate h) = true
  /\ (forall stored : string,
         MachineFingerprint.verify h stored = true
         <-> stored = MachineFingerprint.generate h)
  /\ verify_fingerprint h (generate_fingerprint h) = true
  /\ (String.length (generate_fingerprint h) <= 32)%nat
  /\ PyStr.is_hex (generate_fingerprint h) = true
  /\ (forall stored : string,
         verify_fingerprint h stored = true <-> stored = generate_fingerprint h).
Proof.
  repeat split.
  - apply String.eqb_refl.
  - intros h' Hn Hm Hp Hg. unfold MachineFingerprint.generate.
    now rewrite Hn, Hm, Hp, Hg.
  - rewrite generate_length. lia.
  - unfold MachineFingerprint.generate. apply is_hex_prefix, hexdigest_is_hex.
  - unfold MachineFingerprint.verify. intros H%String.eqb_eq. now symmetry.
  - intros ->. apply String.eqb_refl.
  - apply String.eqb_refl.
  - rewrite generate_fingerprint_length. lia.
  - unfold generate_fingerprint. apply is_hex_prefix, hexdigest_is_hex.
  - unfold verify_fingerprint. intros H%String.eqb_eq. now symmetry.
  - intros ->. apply String.eqb_refl.
Qed.

Lemma fingerprint_verify_generate_witness :
  MachineFingerprint.verify host_pc "1c47565bafd031d3bf5118d599982f15" = true.
Proof.
  destruct (fingerprint_verify_generate host_pc) as (_ & _ & _ & _ & H & _).
  apply H. vm_compute. reflexivity.
Defined.

(** C10. The two fingerprint implementations do not agree: on the host
    [host_pc] the license manager binds the license to
    [1c47565b...] while the activation window shows [9f076bd0...] as the
    machine ID. *)
Theorem fingerprint_implementations_differ :
  MachineFingerprint.generate host_pc = "1c47565bafd031d3bf5118d599982f15"
  /\ generate_fingerprint host_pc = "9f076bd01acc86a9612058c9f3bb34d9"
  /\ MachineFingerprint.generate host_pc <> generate_fingerprint host_pc.
Proof.
  split; [|split].
  - vm_compute. reflexivity.
  - vm_compute. reflexivity.
  - intros H. vm_compute in H. discriminate H.
Qed.

(** ** Validity of the active license *)

Lemma dict_truthy_lookup (d : row) (k : string) (v : value) :
  d !! k = Some v -> dict_truthy d = true.
Proof.
  intros H. unfold dict_truthy. apply negb_true_iff, bool_decide_eq_false.
  intros ->. rewrite lookup_empty in H. discriminate H.
Qed.

Lemma is_date_range (d : Z) : is_date d = true <-> (date_min <= d <= date_max)%Z.
Proof. unfold is_date. rewrite andb_true_iff, !Z.leb_le. reflexivity. Qed.

Lemma grace_end_of_dates (day D G : Z) :
  is_date D = true -> is_date (D + G) = true ->
  match strptime_date (VDate D) with
  | inl e => inl e
  | inr expiry =>
      match timedelta_days (VInt G) with
      | inl e => inl e
      | inr grace =>
          match date_add expiry grace with
          | inl e => inl e
          | inr final_expiry =>
              if (day >? final_expiry)%Z then inr false else inr true
          end
      end
  end = (inr (day <=? D + G)%Z : exn + bool).
Proof.
  intros HD HDG. unfold strptime_date, timedelta_days, date_add. rewrite HD.
  assert (HG : (Z.abs G <=? 999999999)%Z = true).
  { apply is_date_range in HD, HDG. unfold date_min, date_max in *.
    apply Z.leb_le. lia. }
  rewrite HG, HDG.
  destruct (Z.gtb_spec day (D + G)), (Z.leb_spec day (D + G)); (reflexivity || lia).
Qed.

(** C1. For an active license that is not revoked and whose fingerprint
    is the current machine's, with expiry day [D] and [G] days of grace
    such that [D + G] is a date as [D] is, [is_valid] is true on every day
    up to [D + G] and false on every later day. *)
Theorem is_valid_until_end_of_grace
        (current : host) (today D G : Z) (rows : list row) (lic : row) (fp : string) :
  truthy (get lic "is_revoked") = false ->
  lic !! "machine_fingerprint" = Some (VText fp) ->
  MachineFingerprint.verify current fp = true ->
  lic !! "expiry_date" = Some (VDate D) ->
  lic !! "grace_period_days" = Some (VInt G) ->
  is_date D = true ->
  is_date (D + G) = true ->
  ((today <= D + G)%Z -> is_valid current today (LState rows (Some lic)) = inr true)
  /\ ((today > D + G)%Z -> is_valid current today (LState rows (Some lic)) = inr false).
Proof.
  intros Hrev Hfp Hver Hexp Hgrace HD HDG.
  assert (Hvalid : is_valid current today (LState rows (Some lic))
                   = inr (today <=? D + G)%Z).
  { unfold MachineFingerprint.verify in Hver.
    unfold is_valid; cbn [_license].
    rewrite (dict_truthy_lookup _ _ _ Hexp), Hrev; cbn [negb].
    unfold get, get_or. rewrite Hfp, Hexp, Hgrace.
    cbn [truthy str_eq]. rewrite Hver.
    cbn [negb]. rewrite andb_false_r.
    now apply grace_end_of_dates. }
  rewrite Hvalid. split; intros H; f_equal; lia.
Qed.

Lemma is_valid_until_end_of_grace_witness :
  is_valid host_pc 739372 (LState [] (Some license_pc)) = inr true
  /\ is_valid host_pc 739373 (LState [] (Some license_pc)) = inr false.
Proof.
  destruct (is_valid_until_end_of_grace host_pc 739372 739365 7 [] license_pc
              "1c47565bafd031d3bf5118d599982f15") as [Hin _];
    [reflexivity | reflexivity | vm_compute; reflexivity | reflexivity | reflexivity
     | reflexivity | reflexivity |].
  destruct (is_valid_until_end_of_grace host_pc 739373 739365 7 [] license_pc
              "1c47565bafd031d3bf5118d599982f15") as [_ Hout];
    [reflexivity | reflexivity | vm_compute; reflexivity | reflexivity | reflexivity
     | reflexivity | reflexivity |].
  split; [apply Hin | apply Hout]; lia.
Defined.

(** The claim without the condition on [D + G] fails: a license that
    expires on 9999-12-31, the last date there is, with the usual 7 days of
    grace, is not revoked and is bound to this machine, yet on day 739000,
    long before [D + G], [is_valid] does not answer true: the end of the
    grace period is no date and computing it raises [OverflowError]. *)
Lemma is_valid_overflows_at_last_date :
  truthy (get license_last_date "is_revoked") = false
  /\ license_last_date !! "machine_fingerprint"
     = Some (VText "1c47565bafd031d3bf5118d599982f15")
  /\ MachineFingerprint.verify host_pc "1c47565bafd031d3bf5118d599982f15" = true
  /\ license_last_date !! "expiry_date" = Some (VDate 3652059)
  /\ license_last_date !! "grace_period_days" = Some (VInt 7)
  /\ (739000 <= 3652059 + 7)%Z
  /\ is_valid host_pc 739000 (LState [] (Some license_last_date)) = inl OverflowError
  /\ is_valid host_pc 739000 (LState [] (Some license_last_date)) <> inr true.
Proof.
  assert (E : is_valid host_pc 739000 (LState [] (Some license_last_date))
              = inl OverflowError) by (vm_compute; reflexivity).
  split; [reflexivity|]. split; [reflexivity|].
  split; [vm_compute; reflexivity|]. split; [reflexivity|]. split; [reflexivity|].
  split; [lia|]. split; [exact E|]. rewrite E. discriminate.
Qed.

(** ** SQL helpers *)

Lemma sql_eq_true (a b : value) : Sql.eq a b = true -> a = b.
Proof.
  destruct a, b; simpl; try discriminate.
  - intros H%Z.eqb_eq. now subst.
  - intros H%String.eqb_eq. now subst.
Qed.

Lemma find_all_false {A} (f : A -> bool) (l : list A) :
  (forall x, In x l -> f x = false) -> List.find f l = None.
Proof.
  induction l as [|x l IH]; intros H; simpl; [reflexivity|].
  rewrite (H x) by now left. apply IH. intros y Hy. apply H. now right.
Qed.

Lemma str_eq_false (s : string) (v : value) : v <> VText s -> str_eq s v = false.
Proof.
  destruct v; simpl; try reflexivity.
  intros H. apply String.eqb_neq. intros ->. now apply H.
Qed.

(** ** The permission gate *)

(** C6. An authenticated session whose role is Admin is granted every
    module and action, whatever the permission table holds; an
    authenticated session of another role, for which the table has no row
    for its role and the module, is refused each of the five actions. *)
Theorem check_permission_admin_and_fail_closed
        (st : astate) (module action : string) :
  is_authenticated (session st) = true ->
  (role_name (session st) = VText "Admin" ->
   check_permission module action st = inr true)
  /\ (role_name (session st) <> VText "Admin" ->
      In action ACTIONS ->
      (forall r, In r (permissions st) ->
                 ~ (get r "role_id" = role_id (session st)
                    /\ get r "module" = VText module)) ->
      check_permission module action st = inr false).
Proof.
  intros Hauth. unfold check_permission. rewrite Hauth; simpl. split.
  - intros ->. reflexivity.
  - intros Hrole Hact Hrows. rewrite (str_eq_false _ _ Hrole).
    unfold Permission.check_permission.
    assert (Hcol : Sql.has_column permissions_columns action = true).
    { simpl in Hact. destruct Hact as [<-|[<-|[<-|[<-|[<-|[]]]]]]; reflexivity. }
    rewrite Hcol; simpl.
    rewrite find_all_false; [reflexivity|].
    intros r Hr. apply not_true_is_false. intros H.
    apply andb_true_iff in H as [H1 H2].
    apply (Hrows r Hr). split; now apply sql_eq_true.
Qed.

Lemma check_permission_admin_and_fail_closed_witness :
  check_permission "users" "can_delete" (with_session admin_session app_state) = inr true
  /\ check_permission "inventory" "can_view" (with_session sales_session app_state) = inr false.
Proof.
  split.
  - apply (check_permission_admin_and_fail_closed
             (with_session admin_session app_state) "users" "can_delete");
      reflexivity.
  - apply (check_permission_admin_and_fail_closed
             (with_session sales_session app_state) "inventory" "can_view").
    + reflexivity.
    + discriminate.
    + simpl. tauto.
    + simpl. intros r [<-|[]] [_ H]. vm_compute in H. discriminate H.
Defined.

(** ** Login *)

Lemma audit_log_returns (now : string) (uid : value) (action module : string)
      (nv : list (string * string)) (st : astate) :
  fst (AuditLog.log now uid action module nv st) = inr tt.
Proof. reflexivity. Qed.



(** ** License keys *)

Ltac by_cases_on_char c :=
  destruct c as [[] [] [] [] [] [] [] []]; vm_compute;
  first [reflexivity | discriminate | congruence | tauto].

Lemma alnum_upper_class (c : ascii) :
  is_alnum c = true -> is_AZ09 (PyStr.upper_letter c) = true.
Proof. by_cases_on_char c. Qed.

Lemma upper_class_alnum (c : ascii) :
  is_AZ09 (PyStr.upper_letter c) = true -> is_alnum c = true.
Proof. by_cases_on_char c. Qed.

Lemma alnum_not_hyphen (c : ascii) : is_alnum c = true -> Ascii.eqb c "-" = false.
Proof. by_cases_on_char c. Qed.

Lemma class_not_hyphen (c : ascii) : is_AZ09 c = true -> Ascii.eqb c "-" = false.
Proof. by_cases_on_char c. Qed.

Lemma hyphen_not_class (c : ascii) : is_AZ09 c = true -> Ascii.eqb "-" c = false.
Proof. by_cases_on_char c. Qed.

Lemma upper_hyphen (c : ascii) : Ascii.eqb (PyStr.upper_letter c) "-" = true -> c = "-"%char.
Proof. by_cases_on_char c. Qed.

Lemma upper_newline (c : ascii) :
  Ascii.eqb (PyStr.upper_letter c) "010" = true -> Ascii.eqb "-" (PyStr.upper_letter c) = false.
Proof. by_cases_on_char c. Qed.

Lemma split_on_nonempty (sep : ascii) (s : string) : PyStr.split_on sep s <> [].
Proof.
  induction s as [|c s IH]; simpl; [discriminate|].
  destruct (Ascii.eqb c sep); [discriminate|].
  destruct (PyStr.split_on sep s); discriminate.
Qed.

Lemma join_cons (sep p : string) (q : string) (rest : list string) :
  PyStr.join sep (p :: q :: rest) = p +:+ sep +:+ PyStr.join sep (q :: rest).
Proof. reflexivity. Qed.

Lemma join_split_on (sep : ascii) (s : string) :
  PyStr.join (String sep "") (PyStr.split_on sep s) = s.
Proof.
  induction s as [|c s IH]; [reflexivity|].
  simpl PyStr.split_on. destruct (Ascii.eqb_spec c sep) as [->|Hne].
  - destruct (PyStr.split_on sep s) as [|w ws] eqn:E; [now apply split_on_nonempty in E|].
    rewrite join_cons, IH. reflexivity.
  - destruct (PyStr.split_on sep s) as [|w ws] eqn:E; [now apply split_on_nonempty in E|].
    destruct ws as [|w' ws].
    + simpl in IH |- *. now rewrite IH.
    + rewrite join_cons in IH |- *. rewrite <- IH. reflexivity.
Qed.

Lemma is_group_chars (g : string) :
  is_group g = true ->
  exists a b c d, g = String a (String b (String c (String d "")))
                  /\ is_alnum a = true /\ is_alnum b = true
                  /\ is_alnum c = true /\ is_alnum d = true.
Proof.
  unfold is_group. intros H. apply andb_true_iff in H as [Hlen Hall].
  destruct g as [|a [|b [|c [|d [|e g]]]]]; try discriminate Hlen.
  exists a, b, c, d. simpl in Hall.
  repeat (apply andb_true_iff in Hall as [? Hall]). auto.
Qed.

Lemma key_shape_groups (key : string) :
  key_shape key = true ->
  exists g1 g2 g3 g4,
    key = g1 +:+ "-" +:+ g2 +:+ "-" +:+ g3 +:+ "-" +:+ g4
    /\ is_group g1 = true /\ is_group g2 = true
    /\ is_group g3 = true /\ is_group g4 = true.
Proof.
  unfold key_shape. intros H.
  pose proof (join_split_on "-" key) as Hjoin.
  destruct (PyStr.split_on "-" key) as [|g1 [|g2 [|g3 [|g4 [|g5 gs]]]]];
    try discriminate H.
  exists g1, g2, g3, g4.
  apply andb_true_iff in H as [H H4]. apply andb_true_iff in H as [H H3].
  apply andb_true_iff in H as [H1 H2].
  repeat split; try assumption. now rewrite <- Hjoin.
Qed.

Arguments PyStr.upper_letter : simpl never.
Arguments is_AZ09 : simpl never.
Arguments is_alnum : simpl never.


Lemma append_empty_r (a : string) : a +:+ "" = a.
Proof.
  induction a as [|c a IH]; [reflexivity|].
  change (String c a +:+ "") with (String c (a +:+ "")). now rewrite IH.
Qed.

Lemma upper_append (a b : string) :
  upper_letters (a +:+ b) = upper_letters a +:+ upper_letters b.
Proof.
  induction a as [|c a IH]; [reflexivity|].
  change (String c a +:+ b) with (String c (a +:+ b)).
  cbn [upper_letters]. rewrite IH. reflexivity.
Qed.

Lemma upper_char_ascii (c : ascii) :
  (nat_of_ascii c <? 128)%nat = true ->
  PyStr.upper_char c = String (PyStr.upper_letter c) "".
Proof.
  intros H. unfold PyStr.upper_char.
  destruct (Nat.eqb_spec (nat_of_ascii c) 223) as [E|_]; [|reflexivity].
  rewrite E in H. discriminate H.
Qed.

Lemma is_ascii_cons (c : ascii) (s : string) :
  is_ascii (String c s) = (nat_of_ascii c <? 128)%nat && is_ascii s.
Proof. reflexivity. Qed.

Lemma upper_of_ascii (s : string) :
  is_ascii s = true -> PyStr.upper s = upper_letters s.
Proof.
  induction s as [|c s IH]; intros H; [reflexivity|].
  rewrite is_ascii_cons in H. apply andb_true_iff in H as [Hc Hs].
  cbn [PyStr.upper upper_letters]. rewrite (upper_char_ascii c Hc), (IH Hs).
  reflexivity.
Qed.

Lemma is_ascii_append (a b : string) :
  is_ascii (a +:+ b) = is_ascii a && is_ascii b.
Proof.
  induction a as [|c a IH]; [reflexivity|].
  change (String c a +:+ b) with (String c (a +:+ b)).
  now rewrite !is_ascii_cons, IH, andb_assoc.
Qed.

Lemma alnum_ascii (c : ascii) : is_alnum c = true -> (nat_of_ascii c <? 128)%nat = true.
Proof. by_cases_on_char c. Qed.

Lemma group_ascii (g : string) : is_group g = true -> is_ascii g = true.
Proof.
  intros (a & b & c & d & -> & Ha & Hb & Hc & Hd)%is_group_chars.
  rewrite !is_ascii_cons. now rewrite !alnum_ascii by assumption.
Qed.

Lemma key_shape_ascii (key : string) : key_shape key = true -> is_ascii key = true.
Proof.
  intros (g1 & g2 & g3 & g4 & -> & H1 & H2 & H3 & H4)%key_shape_groups.
  rewrite !is_ascii_append.
  rewrite (group_ascii g1 H1), (group_ascii g2 H2), (group_ascii g3 H3),
    (group_ascii g4 H4).
  reflexivity.
Qed.

Lemma remove_char_append (c : ascii) (a b : string) :
  PyStr.remove_char c (a +:+ b) = PyStr.remove_char c a +:+ PyStr.remove_char c b.
Proof.
  induction a as [|d a IH]; [reflexivity|].
  change (String d a +:+ b) with (String d (a +:+ b)).
  cbn [PyStr.remove_char]. destruct (Ascii.eqb c d); rewrite IH; reflexivity.
Qed.

Lemma split_on_group (sep : ascii) (g rest : string) :
  forallb (fun c => negb (Ascii.eqb c sep)) (PyStr.chars g) = true ->
  PyStr.split_on sep (g +:+ String sep rest) = g :: PyStr.split_on sep rest.
Proof.
  induction g as [|c g IH]; intros H.
  - simpl. now rewrite Ascii.eqb_refl.
  - simpl in H. apply andb_true_iff in H as [Hc Hg].
    apply negb_true_iff in Hc.
    change (PyStr.split_on sep (String c g +:+ String sep rest))
      with (if Ascii.eqb c sep then "" :: PyStr.split_on sep (g +:+ String sep rest)
            else match PyStr.split_on sep (g +:+ String sep rest) with
                 | [] => [String c ""]
                 | w :: ws => String c w :: ws
                 end).
    now rewrite Hc, (IH Hg).
Qed.

Lemma split_on_last (sep : ascii) (g : string) :
  forallb (fun c => negb (Ascii.eqb c sep)) (PyStr.chars g) = true ->
  PyStr.split_on sep g = [g].
Proof.
  induction g as [|c g IH]; intros H; [reflexivity|].
  simpl in H. apply andb_true_iff in H as [Hc Hg].
  apply negb_true_iff in Hc. simpl. now rewrite Hc, (IH Hg).
Qed.

Lemma group_no_hyphen (g : string) :
  is_group g = true ->
  forallb (fun c => negb (Ascii.eqb c "-")) (PyStr.chars g) = true.
Proof.
  intros (a & b & c & d & -> & Ha & Hb & Hc & Hd)%is_group_chars. simpl.
  now rewrite !alnum_not_hyphen by assumption.
Qed.

Lemma group_payload (g : string) :
  is_group g = true ->
  PyStr.remove_char "-" (upper_letters g) = upper_letters g
  /\ String.length (upper_letters g) = 4%nat.
Proof.
  intros (a & b & c & d & -> & Ha & Hb & Hc & Hd)%is_group_chars.
  cbn [upper_letters PyStr.remove_char].
  now rewrite !hyphen_not_class by (apply alnum_upper_class; assumption).
Qed.

Lemma groups_key_shape (g1 g2 g3 g4 : string) :
  is_group g1 = true -> is_group g2 = true ->
  is_group g3 = true -> is_group g4 = true ->
  key_shape (g1 +:+ "-" +:+ g2 +:+ "-" +:+ g3 +:+ "-" +:+ g4) = true.
Proof.
  intros H1 H2 H3 H4. unfold key_shape.
  change (g1 +:+ "-" +:+ g2 +:+ "-" +:+ g3 +:+ "-" +:+ g4)
    with (g1 +:+ String "-" (g2 +:+ String "-" (g3 +:+ String "-" g4))).
  rewrite !split_on_group, split_on_last by now apply group_no_hyphen.
  now rewrite H1, H2, H3, H4.
Qed.

Lemma payload_length (g1 g2 g3 g4 tail : string) :
  is_group g1 = true -> is_group g2 = true ->
  is_group g3 = true -> is_group g4 = true ->
  String.length
    (PyStr.remove_char "-"
       (upper_letters (g1 +:+ "-" +:+ g2 +:+ "-" +:+ g3 +:+ "-" +:+ g4 +:+ tail)))
  = (16 + String.length (PyStr.remove_char "-" (upper_letters tail)))%nat.
Proof.
  intros H1 H2 H3 H4.
  apply group_payload in H1 as [E1 L1]. apply group_payload in H2 as [E2 L2].
  apply group_payload in H3 as [E3 L3]. apply group_payload in H4 as [E4 L4].
  rewrite !upper_append, !remove_char_append, !length_append.
  rewrite E1, E2, E3, E4, L1, L2, L3, L4.
  change (PyStr.remove_char "-" (upper_letters "-")) with "". reflexivity.
Qed.

Lemma group_of_chars (a b c d : ascii) :
  is_alnum a = true -> is_alnum b = true -> is_alnum c = true -> is_alnum d = true ->
  is_group (String a (String b (String c (String d "")))) = true.
Proof. intros Ha Hb Hc Hd. unfold is_group. simpl. now rewrite Ha, Hb, Hc, Hd. Qed.

Lemma shape_accepted (key : string) :
  key_shape key = true ->
  _validate_key_format key = true
  /\ String.length (PyStr.remove_char "-" (PyStr.upper key)) = 16%nat.
Proof.
  intros Hshape. unfold _validate_key_format.
  rewrite (upper_of_ascii key (key_shape_ascii key Hshape)).
  apply key_shape_groups in Hshape as (g1 & g2 & g3 & g4 & -> & H1 & H2 & H3 & H4).
  split.
  - apply is_group_chars in H1 as (a1 & b1 & c1 & d1 & -> & ? & ? & ? & ?).
    apply is_group_chars in H2 as (a2 & b2 & c2 & d2 & -> & ? & ? & ? & ?).
    apply is_group_chars in H3 as (a3 & b3 & c3 & d3 & -> & ? & ? & ? & ?).
    apply is_group_chars in H4 as (a4 & b4 & c4 & d4 & -> & ? & ? & ? & ?).
    unfold re_match_key. simpl.
    repeat (rewrite alnum_upper_class by assumption; simpl).
    reflexivity.
  - pose proof (payload_length g1 g2 g3 g4 "" H1 H2 H3 H4) as E.
    now rewrite append_empty_r in E.
Qed.

Ltac class_step Hv key :=
  destruct key as [|? key]; simpl in Hv; [discriminate Hv|];
  match type of Hv with
  | context [is_AZ09 (PyStr.upper_letter ?c)] =>
      destruct (is_AZ09 (PyStr.upper_letter c)) eqn:?; simpl in Hv; [|discriminate Hv]
  end.

Ltac hyphen_step Hv key :=
  destruct key as [|? key]; simpl in Hv; [discriminate Hv|];
  match type of Hv with
  | context [Ascii.eqb (PyStr.upper_letter ?c) "-"] =>
      let E := fresh "E" in
      destruct (Ascii.eqb (PyStr.upper_letter c) "-") eqn:E; simpl in Hv;
      [apply upper_hyphen in E; subst c | discriminate Hv]
  end.

Lemma format_accepted_groups (key : string) :
  is_ascii key = true ->
  _validate_key_format key = true ->
  exists g1 g2 g3 g4 tail,
    key = g1 +:+ "-" +:+ g2 +:+ "-" +:+ g3 +:+ "-" +:+ g4 +:+ tail
    /\ is_group g1 = true /\ is_group g2 = true
    /\ is_group g3 = true /\ is_group g4 = true
    /\ (tail = ""
        \/ exists c, tail = String c ""
                     /\ Ascii.eqb "-" (PyStr.upper_letter c) = false).
Proof.
  intros Ha. unfold _validate_key_format. rewrite (upper_of_ascii key Ha). clear Ha.
  unfold re_match_key. intros Hv.
  do 4 class_step Hv key. hyphen_step Hv key.
  do 4 class_step Hv key. hyphen_step Hv key.
  do 4 class_step Hv key. hyphen_step Hv key.
  do 4 class_step Hv key.
  repeat match goal with
         | H : is_AZ09 (PyStr.upper_letter _) = true |- _ => apply upper_class_alnum in H
         end.
  match goal with
  | |- context [String ?a1 (String ?b1 (String ?c1 (String ?d1 (String "-"
         (String ?a2 (String ?b2 (String ?c2 (String ?d2 (String "-"
         (String ?a3 (String ?b3 (String ?c3 (String ?d3 (String "-"
         (String ?a4 (String ?b4 (String ?c4 (String ?d4 key))))))))))))))))))] =>
      exists (String a1 (String b1 (String c1 (String d1 "")))),
             (String a2 (String b2 (String c2 (String d2 "")))),
             (String a3 (String b3 (String c3 (String d3 "")))),
             (String a4 (String b4 (String c4 (String d4 "")))), key
  end.
  split; [reflexivity|].
  repeat (split; [now apply group_of_chars|]).
  unfold re_dollar in Hv.
  destruct key as [|c [|c' key]]; [now left | right | ].
  - exists c. split; [reflexivity|].
    apply upper_newline.
    simpl in Hv. destruct (Ascii.eqb (PyStr.upper_letter c) "010"); [reflexivity|discriminate Hv].
  - simpl in Hv. destruct (Ascii.eqb (PyStr.upper_letter c) "010"); discriminate Hv.
Qed.

Lemma malformed_rejected (key : string) :
  is_ascii key = true ->
  key_shape key = false ->
  _validate_key_format key = false \/ _decode_license_key key = None.
Proof.
  intros Ha Hshape. destruct (_validate_key_format key) eqn:Hv; [right | now left].
  unfold _decode_license_key. rewrite (upper_of_ascii key Ha).
  apply (format_accepted_groups key Ha) in Hv
    as (g1 & g2 & g3 & g4 & tail & -> & H1 & H2 & H3 & H4 & Htail).
  destruct Htail as [-> | (c & -> & Hc)].
  - rewrite append_empty_r in Hshape.
    now rewrite groups_key_shape in Hshape.
  - rewrite payload_length by assumption.
    cbn [upper_letters PyStr.remove_char]. rewrite Hc. reflexivity.
Qed.

Lemma plan_codes_unknown (code : string) :
  ~ In code ["TRIA"; "BASI"; "PROF"; "ENTR"] -> plan_codes !! code = None.
Proof.
  intros Hnot. unfold plan_codes. cbn [list_to_map foldr].
  rewrite !lookup_insert_ne; [apply lookup_empty | ..];
    intros <-; apply Hnot; simpl; tauto.
Qed.

Lemma wellformed_decoded (key : string) :
  key_shape key = true ->
  _decode_license_key key
  = Some {["plan" := VText (default LicensePlans.BASIC (plan_codes !! plan_code_of key))]}.
Proof.
  intros [_ Hlen]%shape_accepted. unfold _decode_license_key, plan_code_of.
  now rewrite Hlen.
Qed.

Lemma activate_rejects (current : host) (today : Z) (key : string) (st : lstate) :
  _validate_key_format key = false \/ _decode_license_key key = None ->
  exists msg,
    (msg = "Invalid license key format" \/ msg = "Invalid or corrupted license key")
    /\ activate current today key st = (inl (LicenseError msg), st).
Proof.
  intros H. unfold activate, activate_commit, bind.
  destruct (_validate_key_format key).
  - destruct H as [H|H]; [discriminate H|]. rewrite H.
    exists "Invalid or corrupted license key". split; [now right | reflexivity].
  - exists "Invalid license key format". split; [now left | reflexivity].
Qed.

(** X24. Among keys of ASCII characters, the shape XXXX-XXXX-XXXX-XXXX
    decides: a key that does not have it is refused, the format check or
    the decoder fails on it and [activate] raises [LicenseError], leaving
    the state as it was.  A key of that shape passes the format check and
    is decoded, and a plan code other than TRIA, BASI, PROF and ENTR gives
    the BASIC plan. *)
Theorem decode_rejects_malformed_and_accepts_wellformed (key : string) :
  (is_ascii key = true ->
   key_shape key = false ->
   (_validate_key_format key = false \/ _decode_license_key key = None)
   /\ forall (current : host) (today : Z) (st : lstate),
        exists msg,
          (msg = "Invalid license key format"
           \/ msg = "Invalid or corrupted license key")
          /\ activate current today key st = (inl (LicenseError msg), st))
  /\ (key_shape key = true ->
      _validate_key_format key = true
      /\ exists plan,
           _decode_license_key key = Some {["plan" := VText plan]}
           /\ (~ In (plan_code_of key) ["TRIA"; "BASI"; "PROF"; "ENTR"] ->
               plan = LicensePlans.BASIC)).
Proof.
  split.
  - intros Ha Hshape. pose proof (malformed_rejected key Ha Hshape) as Hrej.
    split; [exact Hrej|]. intros current today st. now apply activate_rejects.
  - intros Hshape. split; [now apply shape_accepted|].
    eexists. split; [now apply wellformed_decoded|].
    intros Hcode. now rewrite plan_codes_unknown.
Qed.

Lemma decode_rejects_malformed_and_accepts_wellformed_witness :
  (exists msg, activate host_pc 739000 "PROF-AB12-CD34" (LState [] None)
               = (inl (LicenseError msg), LState [] None))
  /\ _validate_key_format "zzzz-ab12-cd34-ef56" = true
  /\ _decode_license_key "zzzz-ab12-cd34-ef56" = Some {["plan" := VText "BASIC"]}.
Proof.
  destruct (decode_rejects_malformed_and_accepts_wellformed "PROF-AB12-CD34")
    as [Hbad _].
  destruct (decode_rejects_malformed_and_accepts_wellformed "zzzz-ab12-cd34-ef56")
    as [_ Hgood].
  destruct (Hbad eq_refl eq_refl) as [_ Hact].
  destruct (Hact host_pc 739000%Z (LState [] None)) as (msg & _ & E).
  destruct (Hgood eq_refl) as (Hv & plan & Hd & Hplan).
  split; [now exists msg|]. split; [exact Hv|].
  rewrite Hd, Hplan; [reflexivity|].
  vm_compute. intuition discriminate.
Defined.

(** C4. The format check does not refuse every key that lacks the shape
    XXXX-XXXX-XXXX-XXXX: [upper()] turns sharp s into "SS", so the key
    PROF-AB12-CD34-EF followed by sharp s, whose last group has three
    characters, passes the format check and is decoded to the PRO plan;
    [activate] raises no [LicenseError] on it and commits an active record
    of the key as it was typed. *)
Theorem sharp_s_key_is_accepted :
  key_shape sharp_s_key = false
  /\ String.length sharp_s_key = 18%nat
  /\ PyStr.upper sharp_s_key = "PROF-AB12-CD34-EFSS"
  /\ _validate_key_format sharp_s_key = true
  /\ _decode_license_key sharp_s_key = Some {["plan" := VText "PRO"]}
  /\ fst (activate_commit host_pc 739000 sharp_s_key (LState [] None)) = inr tt
  /\ map (fun r => (get r "license_key", get r "plan_type", get r "is_active"))
         (license_rows (snd (activate host_pc 739000 sharp_s_key (LState [] None))))
     = [(VText sharp_s_key, VText "PRO", VInt 1)]
  /\ forall msg,
       fst (activate host_pc 739000 sharp_s_key (LState [] None))
       <> inl (LicenseError msg).
Proof.
  assert (E : fst (activate host_pc 739000 sharp_s_key (LState [] None))
              = inl (AttributeError
                       "'LicenseManager' object has no attribute 'is_expired'"))
    by (vm_compute; reflexivity).
  split; [vm_compute; reflexivity|]. split; [vm_compute; reflexivity|].
  split; [vm_compute; reflexivity|]. split; [vm_compute; reflexivity|].
  split; [vm_compute; reflexivity|]. split; [vm_compute; reflexivity|].
  split; [vm_compute; reflexivity|].
  intros msg. rewrite E. discriminate.
Qed.


(** ** The license table under [activate] *)

Lemma update_deactivates (rows : list row) :
  Sql.update license_columns [("is_active", VInt 0)] (fun _ => true) rows
  = inr (map deactivated rows).
Proof. reflexivity. Qed.

Lemma prepared_columns_exist (today : Z) (fp key : string) (d : row) :
  List.find (fun cv => negb (Sql.has_column license_columns (fst cv)))
            (prepare_record today fp key d) = None.
Proof. reflexivity. Qed.

Lemma insert_prepared (today : Z) (fp key : string) (d : row) (rows : list row) :
  Sql.insert "license" license_columns license_defaults license_unique
             (prepare_record today fp key d) rows
  = if existsb (fun r' => Sql.eq (get r' "license_key") (VText key)) rows
    then inl (IntegrityError "UNIQUE constraint failed: license.license_key")
    else inr (rows ++ [<["id" := VInt (Sql.next_id rows)]>
                         (Sql.assign license_defaults (prepare_record today fp key d))]).
Proof.
  unfold Sql.insert. rewrite prepared_columns_exist.
  unfold license_unique. cbn [List.find].
  replace (get (<["id" := VInt (Sql.next_id rows)]>
                  (Sql.assign license_defaults (prepare_record today fp key d)))
               "license_key") with (VText key) by reflexivity.
  destruct (existsb _ rows); reflexivity.
Qed.


Lemma decode_some_plan (key : string) (d : row) :
  _decode_license_key key = Some d ->
  exists plan, d = {["plan" := VText plan]}.
Proof.
  unfold _decode_license_key.
  destruct (negb _); [discriminate|]. intros [= <-]. eauto.
Qed.

Lemma decode_truthy (key : string) (d : row) :
  _decode_license_key key = Some d -> dict_truthy d = true.
Proof.
  intros (plan & ->)%decode_some_plan.
  apply (dict_truthy_lookup _ "plan" (VText plan)). apply lookup_singleton_eq.
Qed.


Lemma activate_commit_accepted (current : host) (today : Z) (key : string)
      (d : row) (st : lstate) :
  _validate_key_format key = true ->
  _decode_license_key key = Some d ->
  activate_commit current today key st =
  if match find_key key (license_rows st) with
     | Some e => bound_elsewhere current e
     | None => false
     end
  then (inl (LicenseError "License already activated on another machine"), st)
  else if key_taken key (map deactivated (license_rows st))
  then (inl (IntegrityError "UNIQUE constraint failed: license.license_key"),
        LState (map deactivated (license_rows st)) (_license st))
  else (inr tt,
        LState (map deactivated (license_rows st)
                ++ [new_license_row current today key d
                                    (map deactivated (license_rows st))])
               (_license st)).
Proof.
  intros Hv Hd. unfold activate_commit. rewrite Hv, Hd, (decode_truthy _ _ Hd).
  cbn [negb]. unfold bind, gets, ret, raise, find_key, bound_elsewhere.
  destruct (List.find _ (license_rows st)) as [e|].
  - destruct (truthy (get e "machine_fingerprint") && _); [reflexivity|].
    rewrite update_deactivates. cbn [license_rows _license].
    rewrite insert_prepared. unfold key_taken.
    destruct (existsb _ _); reflexivity.
  - rewrite update_deactivates. cbn [license_rows _license].
    rewrite insert_prepared. unfold key_taken.
    destruct (existsb _ _); reflexivity.
Qed.

Lemma get_insert_eq (r : row) (k : string) (v : value) : get (<[k := v]> r) k = v.
Proof. unfold get, get_or. now rewrite lookup_insert_eq. Qed.

Lemma get_insert_ne (r : row) (k k' : string) (v : value) :
  k <> k' -> get (<[k := v]> r) k' = get r k'.
Proof. intros H. unfold get, get_or. now rewrite lookup_insert_ne. Qed.

Lemma deactivated_inactive (r : row) : row_active (deactivated r) = false.
Proof. unfold row_active, deactivated. now rewrite get_insert_eq. Qed.

Lemma deactivated_key (r : row) : key_of (deactivated r) = key_of r.
Proof. unfold key_of, deactivated. now apply get_insert_ne. Qed.

Lemma new_row_active (current : host) (today : Z) (key : string) (d : row)
      (rows : list row) :
  get (new_license_row current today key d rows) "is_active" = VInt 1.
Proof. reflexivity. Qed.

Lemma new_row_key (current : host) (today : Z) (key : string) (d : row)
      (rows : list row) :
  key_of (new_license_row current today key d rows) = VText key.
Proof. reflexivity. Qed.

Lemma count_active_deactivated (rows : list row) :
  count_active (map deactivated rows) = 0%nat.
Proof.
  unfold count_active. induction rows as [|r rows IH]; [reflexivity|].
  cbn [map List.filter]. now rewrite deactivated_inactive.
Qed.

Lemma count_active_app (l1 l2 : list row) :
  count_active (l1 ++ l2) = (count_active l1 + count_active l2)%nat.
Proof. unfold count_active. now rewrite List.filter_app, length_app. Qed.

Lemma activate_keeps_commit_rows (current : host) (today : Z) (key : string)
      (st : lstate) :
  license_rows (snd (activate current today key st))
  = license_rows (snd (activate_commit current today key st)).
Proof.
  unfold activate, bind.
  destruct (activate_commit current today key st) as [[e|[]] st1]; [reflexivity|].
  unfold _load_license.
  destruct (Sql.last_by_id _) as [r|]; unfold get_status;
    destruct (is_valid _ _ _); reflexivity.
Qed.

Lemma activate_commit_success (current : host) (today : Z) (key : string)
      (st : lstate) :
  fst (activate_commit current today key st) = inr tt ->
  exists d,
    _validate_key_format key = true
    /\ _decode_license_key key = Some d
    /\ key_taken key (map deactivated (license_rows st)) = false
    /\ snd (activate_commit current today key st)
       = LState (map deactivated (license_rows st)
                 ++ [new_license_row current today key d
                                     (map deactivated (license_rows st))])
                (_license st).
Proof.
  intros Hok.
  destruct (_validate_key_format key) eqn:Hv;
    [|unfold activate_commit in Hok; rewrite Hv in Hok; discriminate Hok].
  destruct (_decode_license_key key) as [d|] eqn:Hd;
    [|unfold activate_commit in Hok; rewrite Hv, Hd in Hok; discriminate Hok].
  exists d. rewrite (activate_commit_accepted _ _ _ _ _ Hv Hd) in Hok |- *.
  destruct (match find_key key (license_rows st) with
            | Some e => bound_elsewhere current e
            | None => false
            end); [discriminate Hok|].
  destruct (key_taken key (map deactivated (license_rows st)));
    [discriminate Hok|]. auto.
Qed.

Lemma activate_leaves_one_active (current : host) (today : Z) (key : string)
      (st : lstate) :
  fst (activate_commit current today key st) = inr tt ->
  count_active (license_rows (snd (activate current today key st))) = 1%nat.
Proof.
  intros (d & _ & _ & _ & E)%activate_commit_success.
  rewrite activate_keeps_commit_rows, E. cbn [license_rows].
  rewrite count_active_app, count_active_deactivated.
  unfold count_active, row_active. cbn [List.filter].
  now rewrite new_row_active.
Qed.

(** C2. After any sequence of one or more [activate] calls, each of which
    got through its commit, exactly one record of the license table is
    active. *)
Theorem activations_leave_one_active (st st' : lstate) (n : nat) :
  activations st n st' -> (0 < n)%nat ->
  count_active (license_rows st') = 1%nat.
Proof.
  induction 1 as [st | st n st' current today key Hok Hrest IH]; intros Hn; [lia|].
  destruct n as [|n].
  - inversion Hrest; subst. now apply activate_leaves_one_active.
  - apply IH. lia.
Qed.

Lemma activations_leave_one_active_witness :
  count_active
    (license_rows
       (snd (activate host_pc 739010 "TRIA-0000-0000-0001" activated_pc))) = 1%nat.
Proof.
  apply (activations_leave_one_active (LState [] None) _ 2); [|lia].
  apply (activations_more _ _ _ host_pc 739000 "PROF-AB12-CD34-EF56");
    [vm_compute; reflexivity|].
  apply (activations_more _ _ _ host_pc 739010 "TRIA-0000-0000-0001");
    [vm_compute; reflexivity|].
  apply activations_none.
Defined.


Lemma sql_eq_text_refl (s : string) : Sql.eq (VText s) (VText s) = true.
Proof. apply String.eqb_refl. Qed.

Lemma find_key_unique (key : string) (rows : list row) (r : row) :
  NoDup (map key_of rows) -> In r rows -> key_of r = VText key ->
  find_key key rows = Some r.
Proof.
  unfold find_key. induction rows as [|x rows IH]; intros Hnd Hin Hkey; [destruct Hin|].
  cbn [map] in Hnd. apply NoDup_cons in Hnd as [Hx Hnd]. cbn [List.find].
  fold (key_of x). destruct Hin as [-> | Hin].
  - now rewrite Hkey, sql_eq_text_refl.
  - destruct (Sql.eq (key_of x) (VText key)) eqn:E; [|now apply IH].
    apply sql_eq_true in E. exfalso. apply Hx.
    rewrite E, <- Hkey. apply list_elem_of_In. now apply in_map.
Qed.

(** X25. When the table holds a record of the key, character for
    character, whose fingerprint is bound and is not the current machine's,
    [activate] raises [LicenseError] "License already activated on another
    machine" and leaves the table and the manager as they were: no record
    is inserted. *)
Theorem activate_refuses_key_bound_elsewhere
        (current : host) (today : Z) (key : string) (st : lstate)
        (r : row) (bound : value) :
  store_wf (license_rows st) ->
  In r (license_rows st) ->
  key_of r = VText key ->
  r !! "machine_fingerprint" = Some bound ->
  truthy bound = true ->
  bound <> VText (MachineFingerprint.generate current) ->
  activate current today key st
  = (inl (LicenseError "License already activated on another machine"), st).
Proof.
  intros [Hnd Hwf] Hin Hkey Hfp Hbound Hother.
  rewrite Forall_forall in Hwf.
  destruct (Hwf r (proj2 (list_elem_of_In _ _) Hin)) as (k & Hk & Hv & [d Hd]).
  rewrite Hkey in Hk. injection Hk as <-.
  unfold activate, bind.
  rewrite (activate_commit_accepted _ _ _ _ _ Hv Hd).
  rewrite (find_key_unique key _ r Hnd Hin Hkey).
  unfold bound_elsewhere, get, get_or. rewrite Hfp, Hbound.
  now rewrite (str_eq_false _ _ Hother).
Qed.

Lemma activated_pc_rows :
  license_rows activated_pc
  = [new_license_row host_pc 739000 pro_key {["plan" := VText "PRO"]} []].
Proof.
  unfold activated_pc. fold pro_key. rewrite activate_keeps_commit_rows.
  rewrite (activate_commit_accepted _ _ _ {["plan" := VText "PRO"]});
    [reflexivity | vm_compute; reflexivity | vm_compute; reflexivity].
Qed.

Lemma activate_refuses_key_bound_elsewhere_witness :
  activate host_laptop 739100 "PROF-AB12-CD34-EF56" activated_pc
  = (inl (LicenseError "License already activated on another machine"), activated_pc).
Proof.
  pose proof activated_pc_rows as Hrows.
  eapply (activate_refuses_key_bound_elsewhere host_laptop 739100
            "PROF-AB12-CD34-EF56" activated_pc _
            (VText "1c47565bafd031d3bf5118d599982f15")).
  - rewrite Hrows. split.
    + repeat constructor. vm_compute. intros H. inversion H.
    + repeat constructor. exists "PROF-AB12-CD34-EF56".
      split; [reflexivity|].
      split; [vm_compute; reflexivity | eexists; vm_compute; reflexivity].
  - rewrite Hrows. left. reflexivity.
  - reflexivity.
  - vm_compute. reflexivity.
  - reflexivity.
  - intros H. vm_compute in H. discriminate H.
Defined.

(** C5. A key is looked up as it was typed, while the format check and
    the decoder read it in capitals: the key PROF-AB12-CD34-EF56 is bound
    to [host_pc], and on [host_laptop], whose fingerprint is another,
    [activate] of the same key in small letters raises no [LicenseError]:
    it deactivates the record of [host_pc], commits a second, active record
    bound to [host_laptop], and the license is valid there. *)
Theorem lowercase_key_activates_elsewhere :
  PyStr.upper "prof-ab12-cd34-ef56" = "PROF-AB12-CD34-EF56"
  /\ map (fun r => (get r "license_key", get r "machine_fingerprint", get r "is_active"))
         (license_rows activated_pc)
     = [(VText "PROF-AB12-CD34-EF56", VText (MachineFingerprint.generate host_pc),
         VInt 1)]
  /\ MachineFingerprint.generate host_laptop <> MachineFingerprint.generate host_pc
  /\ fst (activate_commit host_laptop 739100 "prof-ab12-cd34-ef56" activated_pc)
     = inr tt
  /\ map (fun r => (get r "license_key", get r "machine_fingerprint", get r "is_active"))
         (license_rows (snd (activate host_laptop 739100 "prof-ab12-cd34-ef56"
                                      activated_pc)))
     = [(VText "PROF-AB12-CD34-EF56", VText (MachineFingerprint.generate host_pc),
         VInt 0);
        (VText "prof-ab12-cd34-ef56", VText (MachineFingerprint.generate host_laptop),
         VInt 1)]
  /\ (forall msg,
        fst (activate host_laptop 739100 "prof-ab12-cd34-ef56" activated_pc)
        <> inl (LicenseError msg))
  /\ is_valid host_laptop 739100
              (snd (activate host_laptop 739100 "prof-ab12-cd34-ef56" activated_pc))
     = inr true.
Proof.
  assert (E : fst (activate host_laptop 739100 "prof-ab12-cd34-ef56" activated_pc)
              = inl (AttributeError
                       "'LicenseManager' object has no attribute 'is_expired'"))
    by (vm_compute; reflexivity).
  split; [vm_compute; reflexivity|]. split; [vm_compute; reflexivity|].
  split; [intros H; vm_compute in H; discriminate H|].
  split; [vm_compute; reflexivity|]. split; [vm_compute; reflexivity|].
  split; [intros msg; rewrite E; discriminate|].
  vm_compute. reflexivity.
Qed.


Lemma filter_active_deactivated (rows : list row) :
  List.filter (fun r => Sql.eq (get r "is_active") (VInt 1)) (map deactivated rows) = [].
Proof.
  induction rows as [|r rows IH]; [reflexivity|].
  cbn [map List.filter]. unfold deactivated at 1. now rewrite get_insert_eq.
Qed.

Lemma load_after_commit (rows : list row) (new : row) (lic : option row)
      (mods : list string) :
  get new "is_active" = VInt 1 ->
  get new "enabled_modules" = VJson mods ->
  _load_license (LState (map deactivated rows ++ [new]) lic)
  = (inr tt, LState (map deactivated rows ++ [new])
                    (Some (<["modules_list" := VList mods]> new))).
Proof.
  intros Hact Hmods. unfold _load_license. cbn [license_rows].
  rewrite List.filter_app, filter_active_deactivated. cbn [List.filter app].
  rewrite Hact. cbn [Sql.eq]. rewrite Z.eqb_refl.
  cbn [Sql.last_by_id fold_left]. now rewrite Hmods.
Qed.

Lemma activate_state_after_commit (current : host) (today : Z) (key : string)
      (st : lstate) :
  fst (activate_commit current today key st) = inr tt ->
  snd (activate current today key st)
  = snd (_load_license (snd (activate_commit current today key st))).
Proof.
  intros Hok. unfold activate, bind.
  destruct (activate_commit current today key st) as [[e|[]] st1];
    [discriminate Hok|]. cbn [snd].
  destruct (_load_license st1) as [[e|[]] st2]; [reflexivity|].
  cbn [snd]. unfold get_status. destruct (is_valid _ _ _); reflexivity.
Qed.

Lemma key_not_taken (key : string) (rows : list row) :
  (forall r, In r rows -> key_of r <> VText key) ->
  key_taken key (map deactivated rows) = false.
Proof.
  intros H. unfold key_taken. induction rows as [|r rows IH]; [reflexivity|].
  cbn [map existsb]. rewrite IH by (intros r' Hr'; apply H; now right).
  rewrite orb_false_r. fold (key_of (deactivated r)). rewrite deactivated_key.
  apply not_true_is_false. intros E%sql_eq_true. apply (H r); [now left | exact E].
Qed.

Lemma find_key_none (key : string) (rows : list row) :
  (forall r, In r rows -> key_of r <> VText key) -> find_key key rows = None.
Proof.
  intros H. unfold find_key. induction rows as [|r rows IH]; [reflexivity|].
  cbn [List.find]. fold (key_of r).
  destruct (Sql.eq (key_of r) (VText key)) eqn:E.
  - apply sql_eq_true in E. exfalso. apply (H r); [now left | exact E].
  - apply IH. intros r' Hr'. apply H. now right.
Qed.




(** ** Revocation *)

Lemma revoke_license_fails (st : lstate) :
  exists e, revoke_license st = (inl e, st).
Proof.
  unfold revoke_license. destruct (_license st) as [lic|]; [|eauto].
  destruct (lic !! "id") as [id|]; eauto.
Qed.

Lemma revoke_license_loaded (st : lstate) :
  is_Some (_license st ≫= (fun lic => lic !! "id")) ->
  revoke_license st = (inl (OperationalError "no such column: is_revoked"), st).
Proof.
  intros [id Hid]. unfold revoke_license.
  destruct (_license st) as [lic|]; [|discriminate Hid].
  cbn in Hid. now rewrite Hid.
Qed.

Lemma check_remote_revocation_changes_nothing
      (url : option string) (reply : http_reply) (st : lstate) :
  check_remote_revocation url reply st = (inr false, st).
Proof.
  unfold check_remote_revocation.
  destruct (no_license st || negb (is_activated st) || _); [reflexivity|].
  unfold try_except, raise, ret.
  destruct reply as [|status [data|]]; try reflexivity.
  - destruct (status =? 200)%Z; [|reflexivity].
    unfold bind, getitem.
    destruct (default ∅ (_license st) !! "license_key") as [k|]; [|reflexivity].
    unfold ret.
    destruct (value_in k _ || value_in _ _); [|reflexivity].
    destruct (revoke_license_fails st) as [e ->]. reflexivity.
  - destruct (status =? 200)%Z; reflexivity.
Qed.

(** C3, on the code. With the activated license's key in the feed's
    [revoked_keys], [revoke_license] is rejected by SQLite, because the
    license table has no [is_revoked] column; [check_remote_revocation]
    swallows the error, returns [False] and changes nothing, and the
    license stays valid. *)
Theorem listed_key_is_not_revoked :
  is_valid host_pc 739001 activated_pc = inr true
  /\ revoke_license activated_pc
     = (inl (OperationalError "no such column: is_revoked"), activated_pc)
  /\ check_remote_revocation (Some "https://example.com/api/revoked_licenses.json")
                             feed_listing_key activated_pc
     = (inr false, activated_pc)
  /\ count_active (license_rows activated_pc) = 1%nat
  /\ is_valid host_pc 739001
              (snd (check_remote_revocation
                      (Some "https://example.com/api/revoked_licenses.json")
                      feed_listing_key activated_pc)) = inr true.
Proof.
  assert (Hvalid : is_valid host_pc 739001 activated_pc = inr true)
    by (vm_compute; reflexivity).
  split; [exact Hvalid|].
  split; [apply revoke_license_loaded; exists (VInt 1); vm_compute; reflexivity|].
  split; [apply check_remote_revocation_changes_nothing|].
  split; [vm_compute; reflexivity|].
  now rewrite check_remote_revocation_changes_nothing.
Qed.

(** * Further properties of the code *)

(** ** [activate]: outcomes *)

Lemma get_status_raises (current : host) (today : Z) (st : lstate) :
  exists e, get_status current today st = (inl e, st).
Proof. unfold get_status. destruct (is_valid current today st); eauto. Qed.

(** X1. No call of [activate] returns a status: every call ends in an
    exception. *)
Theorem activate_never_returns (current : host) (today : Z) (key : string)
        (st : lstate) :
  exists e, fst (activate current today key st) = inl e.
Proof.
  unfold activate, bind.
  destruct (activate_commit current today key st) as [[e|[]] st1]; [eauto|].
  destruct (_load_license st1) as [[e|[]] st2]; [eauto|].
  destruct (get_status_raises current today st2) as [e ->]. eauto.
Qed.

Lemma activate_commit_license_error (current : host) (today : Z) (key : string)
      (st : lstate) (msg : string) :
  fst (activate_commit current today key st) = inl (LicenseError msg) ->
  snd (activate_commit current today key st) = st.
Proof.
  destruct (_validate_key_format key) eqn:Hv;
    [|unfold activate_commit; rewrite Hv; reflexivity].
  destruct (_decode_license_key key) as [d|] eqn:Hd;
    [|unfold activate_commit; rewrite Hv, Hd; reflexivity].
  rewrite (activate_commit_accepted _ _ _ _ _ Hv Hd).
  destruct (match find_key key (license_rows st) with
            | Some e => bound_elsewhere current e
            | None => false
            end); [reflexivity|].
  destruct (key_taken _ _); discriminate.
Qed.

Lemma load_license_returns (st : lstate) : fst (_load_license st) = inr tt.
Proof. unfold _load_license. destruct (Sql.last_by_id _); reflexivity. Qed.

Lemma is_valid_never_license_error (current : host) (today : Z) (st : lstate)
      (msg : string) :
  is_valid current today st <> inl (LicenseError msg).
Proof.
  unfold is_valid. destruct (_license st) as [lic|]; [|discriminate].
  destruct (negb (dict_truthy lic)); [discriminate|].
  destruct (truthy (get lic "is_revoked")); [discriminate|].
  destruct (truthy (get lic "machine_fingerprint") && _); [discriminate|].
  destruct (truthy (get lic "expiry_date")); [|discriminate].
  unfold strptime_date, timedelta_days, date_add.
  destruct (get lic "expiry_date") as [| | |d| | | |]; try discriminate.
  destruct (is_date d); [|discriminate].
  destruct (get_or lic "grace_period_days" (VInt 7)) as [|g| | | | | |];
    try discriminate.
  destruct (Z.abs g <=? 999999999)%Z; [|discriminate].
  destruct (is_date (d + g)); [|discriminate].
  destruct (_ >? _)%Z; discriminate.
Qed.

(** X2. When [activate] raises [LicenseError], the license table and the
    manager are as before the call. *)
Theorem activate_license_error_changes_nothing
        (current : host) (today : Z) (key : string) (st : lstate) (msg : string) :
  fst (activate current today key st) = inl (LicenseError msg) ->
  snd (activate current today key st) = st.
Proof.
  unfold activate, bind. intros H.
  pose proof (activate_commit_license_error current today key st) as Hc.
  destruct (activate_commit current today key st) as [[e|[]] st1].
  - cbn [fst snd] in *. injection H as ->. now apply (Hc msg).
  - exfalso. pose proof (load_license_returns st1) as Hl.
    destruct (_load_license st1) as [[e|[]] st2]; [discriminate Hl|].
    unfold get_status in H.
    pose proof (is_valid_never_license_error current today st2 msg) as Hv.
    destruct (is_valid current today st2) as [e|b]; cbn [fst] in H.
    + apply Hv. congruence.
    + discriminate H.
Qed.

Lemma activate_license_error_changes_nothing_witness :
  snd (activate host_laptop 739100 pro_key activated_pc) = activated_pc.
Proof.
  apply (activate_license_error_changes_nothing _ _ _ _
           "License already activated on another machine").
  vm_compute. reflexivity.
Defined.

(** ** [activate]: the table invariant *)

Lemma keys_deactivated (rows : list row) :
  map key_of (map deactivated rows) = map key_of rows.
Proof.
  induction rows as [|r rows IH]; [reflexivity|].
  cbn [map]. now rewrite deactivated_key, IH.
Qed.

Lemma store_wf_deactivated (rows : list row) :
  store_wf rows -> store_wf (map deactivated rows).
Proof.
  intros [Hnd Hwf]. split; [now rewrite keys_deactivated|]. clear Hnd.
  induction Hwf as [|r rows Hr _ IH]; cbn [map]; [constructor|].
  constructor; [now rewrite deactivated_key | exact IH].
Qed.

Lemma key_taken_false (key : string) (rows : list row) (r : row) :
  key_taken key rows = false -> In r rows -> key_of r <> VText key.
Proof.
  unfold key_taken. intros H Hin Hkey.
  assert (existsb (fun r => Sql.eq (get r "license_key") (VText key)) rows = true);
    [|congruence].
  apply existsb_exists. exists r. split; [exact Hin|].
  fold (key_of r). rewrite Hkey. apply sql_eq_text_refl.
Qed.

Lemma key_taken_true (key : string) (rows : list row) (r : row) :
  In r rows -> key_of r = VText key -> key_taken key rows = true.
Proof.
  intros Hin Hkey. destruct (key_taken key rows) eqn:E; [reflexivity|].
  now destruct (key_taken_false key rows r E Hin).
Qed.

Lemma store_wf_snoc (rows : list row) (new : row) (key : string) :
  store_wf rows -> key_taken key rows = false ->
  key_of new = VText key -> _validate_key_format key = true ->
  is_Some (_decode_license_key key) ->
  store_wf (rows ++ [new]).
Proof.
  intros [Hnd Hwf] Hfree Hkey Hv Hd. split.
  - rewrite map_app. apply NoDup_app. split; [exact Hnd|]. split.
    + intros k Hk Hk'. cbn [map] in Hk'. apply list_elem_of_In in Hk, Hk'.
      destruct Hk' as [<-|[]]. apply in_map_iff in Hk as (r & Hr & Hin).
      apply (key_taken_false key rows r Hfree Hin). congruence.
    + cbn [map]. apply NoDup_singleton.
  - apply Forall_app. split; [exact Hwf|]. constructor; [|constructor]. eauto.
Qed.

(** X3. The license table stays well formed under [activate], whatever
    the call's outcome: keys stay unique and every stored key is one the
    format check and the decoder accept. *)
Theorem activate_preserves_store_wf
        (current : host) (today : Z) (key : string) (st : lstate) :
  store_wf (license_rows st) ->
  store_wf (license_rows (snd (activate current today key st))).
Proof.
  intros Hwf. rewrite activate_keeps_commit_rows.
  destruct (_validate_key_format key) eqn:Hv;
    [|unfold activate_commit; rewrite Hv; exact Hwf].
  destruct (_decode_license_key key) as [d|] eqn:Hd;
    [|unfold activate_commit; rewrite Hv, Hd; exact Hwf].
  rewrite (activate_commit_accepted _ _ _ _ _ Hv Hd).
  destruct (match find_key key (license_rows st) with
            | Some e => bound_elsewhere current e
            | None => false
            end); [exact Hwf|].
  destruct (key_taken key (map deactivated (license_rows st))) eqn:Hfree;
    cbn [snd license_rows].
  - now apply store_wf_deactivated.
  - apply (store_wf_snoc _ _ key); auto using store_wf_deactivated, new_row_key.
Qed.

Lemma store_wf_nil : store_wf [].
Proof. split; constructor. Qed.

Lemma activated_pc_wf : store_wf (license_rows activated_pc).
Proof.
  rewrite activated_pc_rows. split.
  - apply NoDup_singleton.
  - repeat constructor. exists pro_key. split; [reflexivity|].
    split; [vm_compute; reflexivity | eexists; vm_compute; reflexivity].
Qed.

Lemma activate_preserves_store_wf_witness : store_wf (license_rows activated_pc).
Proof.
  apply (activate_preserves_store_wf host_pc 739000 pro_key (LState [] None)).
  apply store_wf_nil.
Defined.

Lemma activate_commit_taken (current : host) (today : Z) (key : string)
      (st : lstate) (r : row) :
  store_wf (license_rows st) ->
  In r (license_rows st) ->
  key_of r = VText key ->
  bound_elsewhere current r = false ->
  activate_commit current today key st
  = (inl (IntegrityError "UNIQUE constraint failed: license.license_key"),
     LState (map deactivated (license_rows st)) (_license st)).
Proof.
  intros [Hnd Hwf] Hin Hkey Hfree.
  rewrite Forall_forall in Hwf.
  destruct (Hwf r (proj2 (list_elem_of_In _ _) Hin)) as (k & Hk & Hv & [d Hd]).
  rewrite Hkey in Hk. injection Hk as <-.
  rewrite (activate_commit_accepted _ _ _ _ _ Hv Hd).
  rewrite (find_key_unique key _ r Hnd Hin Hkey), Hfree.
  rewrite (key_taken_true key _ (deactivated r)); [reflexivity | | ].
  - now apply in_map.
  - now rewrite deactivated_key.
Qed.

(** X4. Activating a key that the table already holds, on a machine the
    record is not bound away from, fails on the UNIQUE constraint after the
    older records were deactivated: the call raises [IntegrityError] and
    leaves no active record, while the manager keeps the license it had. *)
Theorem reactivation_leaves_no_active_record
        (current : host) (today : Z) (key : string) (st : lstate) (r : row) :
  store_wf (license_rows st) ->
  In r (license_rows st) ->
  key_of r = VText key ->
  bound_elsewhere current r = false ->
  fst (activate current today key st)
  = inl (IntegrityError "UNIQUE constraint failed: license.license_key")
  /\ license_rows (snd (activate current today key st))
     = map deactivated (license_rows st)
  /\ count_active (license_rows (snd (activate current today key st))) = 0%nat
  /\ _license (snd (activate current today key st)) = _license st.
Proof.
  intros Hwf Hin Hkey Hfree.
  pose proof (activate_commit_taken current today key st r Hwf Hin Hkey Hfree) as E.
  split; [unfold activate, bind; now rewrite E|].
  rewrite activate_keeps_commit_rows, E. cbn [snd license_rows].
  split; [reflexivity|]. split; [apply count_active_deactivated|].
  unfold activate, bind. now rewrite E.
Qed.

Lemma reactivation_leaves_no_active_record_witness :
  fst (activate host_pc 739001 pro_key activated_pc)
  = inl (IntegrityError "UNIQUE constraint failed: license.license_key")
  /\ count_active (license_rows (snd (activate host_pc 739001 pro_key activated_pc)))
     = 0%nat.
Proof.
  destruct (reactivation_leaves_no_active_record host_pc 739001 pro_key activated_pc
              (new_license_row host_pc 739000 pro_key {["plan" := VText "PRO"]} []))
    as (H1 & _ & H3 & _).
  - apply activated_pc_wf.
  - rewrite activated_pc_rows. now left.
  - reflexivity.
  - vm_compute. reflexivity.
  - split; assumption.
Defined.

(** ** From activation to validity *)

Lemma decode_plan_of_key (key : string) (d : row) :
  _decode_license_key key = Some d -> d = {["plan" := VText (plan_of_key key)]}.
Proof.
  unfold _decode_license_key, plan_of_key, plan_code_of.
  destruct (negb _); [discriminate|]. now intros [= <-].
Qed.

(** The license the manager holds after a committed activation. *)
Lemma activate_loads_new_row (current : host) (today : Z) (key : string)
      (st : lstate) :
  fst (activate_commit current today key st) = inr tt ->
  _license (snd (activate current today key st))
  = Some (<["modules_list" := VList (LicensePlans.modules (config_of_plan (plan_of_key key)))]>
            (new_license_row current today key
                             {["plan" := VText (plan_of_key key)]}
                             (map deactivated (license_rows st)))).
Proof.
  intros Hok. rewrite (activate_state_after_commit _ _ _ _ Hok).
  destruct (activate_commit_success _ _ _ _ Hok) as (d & _ & Hd & _ & ->).
  apply decode_plan_of_key in Hd as ->.
  now rewrite (load_after_commit _ _ _
                 (LicensePlans.modules (config_of_plan (plan_of_key key)))).
Qed.

Lemma is_valid_of_fields (current : host) (day D G : Z) (rows : list row)
      (lic : row) (fp : string) :
  lic !! "is_revoked" = None ->
  lic !! "machine_fingerprint" = Some (VText fp) ->
  lic !! "expiry_date" = Some (VDate D) ->
  lic !! "grace_period_days" = Some (VInt G) ->
  is_date D = true ->
  is_date (D + G) = true ->
  is_valid current day (LState rows (Some lic))
  = if PyStr.nonempty fp && negb (String.eqb (MachineFingerprint.generate current) fp)
    then inr false
    else inr (day <=? D + G)%Z.
Proof.
  intros Hrev Hfp Hexp Hgrace HD HDG. unfold is_valid; cbn [_license].
  rewrite (dict_truthy_lookup _ _ _ Hexp); cbn [negb].
  unfold get, get_or. rewrite Hrev, Hfp, Hexp, Hgrace.
  cbn [truthy str_eq].
  destruct (PyStr.nonempty fp && _); [reflexivity|].
  now apply grace_end_of_dates.
Qed.

Lemma is_valid_elsewhere (current : host) (day : Z) (rows : list row)
      (lic : row) (fp : string) (expiry : value) :
  lic !! "is_revoked" = None ->
  lic !! "machine_fingerprint" = Some (VText fp) ->
  lic !! "expiry_date" = Some expiry ->
  PyStr.nonempty fp = true ->
  MachineFingerprint.generate current <> fp ->
  is_valid current day (LState rows (Some lic)) = inr false.
Proof.
  intros Hrev Hfp Hexp Hne Hdiff. unfold is_valid; cbn [_license].
  rewrite (dict_truthy_lookup _ _ _ Hexp); cbn [negb].
  unfold get, get_or. rewrite Hrev, Hfp. cbn [truthy str_eq].
  apply String.eqb_neq in Hdiff. now rewrite Hne, Hdiff.
Qed.

Lemma generate_nonempty (h : host) :
  PyStr.nonempty (MachineFingerprint.generate h) = true.
Proof.
  pose proof (generate_length h) as H.
  destruct (MachineFingerprint.generate h); [discriminate H | reflexivity].
Qed.

(** X5. After an activation that got through its commit, the license is
    valid on the machine it was activated on from that day through the
    plan's duration plus seven days of grace, and invalid from the next day
    on; a module is enabled on a valid day exactly when the plan lists it.
    The clock stands where the expiry day and the end of its grace are
    dates. *)
Theorem activated_license_valid_through_grace
        (current : host) (today : Z) (key : string) (st : lstate) (day : Z) :
  fst (activate_commit current today key st) = inr tt ->
  let cfg := config_of_plan (plan_of_key key) in
  let st' := snd (activate current today key st) in
  let last_day := (today + LicensePlans.duration_days cfg + 7)%Z in
  is_date (today + LicensePlans.duration_days cfg) = true ->
  is_date last_day = true ->
  is_valid current day st' = inr (day <=? last_day)%Z
  /\ forall module : string,
       is_module_enabled current day module st'
       = inr ((day <=? last_day)%Z
              && existsb (String.eqb module) (LicensePlans.modules cfg)).
Proof.
  intros Hok cfg st' last_day Hexpiry Hlast.
  pose proof (activate_loads_new_row _ _ _ _ Hok) as Hlic. fold cfg st' in Hlic.
  assert (Hvalid : is_valid current day st' = inr (day <=? last_day)%Z).
  { destruct st' as [rows lic]. cbn [_license] in Hlic. subst lic.
    rewrite (is_valid_of_fields current day
               (today + LicensePlans.duration_days cfg) 7 rows _
               (MachineFingerprint.generate current)); try reflexivity;
      try assumption.
    now rewrite String.eqb_refl, andb_false_r. }
  split; [exact Hvalid|]. intros module.
  unfold is_module_enabled. rewrite Hvalid.
  destruct (day <=? last_day)%Z; [|reflexivity].
  unfold get_enabled_modules, no_license. rewrite Hlic.
  rewrite (dict_truthy_lookup _ "modules_list" (VList (LicensePlans.modules cfg)))
    by apply lookup_insert_eq.
  cbn [negb default from_option id]. unfold get_or. now rewrite lookup_insert_eq.
Qed.

Lemma activated_license_valid_through_grace_witness :
  is_valid host_pc 739372 activated_pc = inr true
  /\ is_valid host_pc 739373 activated_pc = inr false
  /\ is_module_enabled host_pc 739100 "reports" activated_pc = inr true
  /\ is_module_enabled host_pc 739100 "users" activated_pc = inr false.
Proof.
  assert (Hok : fst (activate_commit host_pc 739000 pro_key (LState [] None)) = inr tt)
    by (vm_compute; reflexivity).
  assert (Hexpiry : is_date (739000 + LicensePlans.duration_days
                                        (config_of_plan (plan_of_key pro_key))) = true)
    by (vm_compute; reflexivity).
  assert (Hlast : is_date (739000 + LicensePlans.duration_days
                                      (config_of_plan (plan_of_key pro_key)) + 7) = true)
    by (vm_compute; reflexivity).
  destruct (activated_license_valid_through_grace host_pc 739000 pro_key
              (LState [] None) 739372 Hok Hexpiry Hlast) as [H1 _].
  destruct (activated_license_valid_through_grace host_pc 739000 pro_key
              (LState [] None) 739373 Hok Hexpiry Hlast) as [H2 _].
  destruct (activated_license_valid_through_grace host_pc 739000 pro_key
              (LState [] None) 739100 Hok Hexpiry Hlast) as [_ H3].
  split; [exact H1|]. split; [exact H2|].
  split; [apply (H3 "reports") | apply (H3 "users")].
Defined.

(** X6. A license activated on one machine is invalid, on every day, on a
    machine with another fingerprint. *)
Theorem activated_license_invalid_elsewhere
        (current other : host) (today : Z) (key : string) (st : lstate) (day : Z) :
  fst (activate_commit current today key st) = inr tt ->
  MachineFingerprint.generate other <> MachineFingerprint.generate current ->
  is_valid other day (snd (activate current today key st)) = inr false.
Proof.
  intros Hok Hdiff.
  pose proof (activate_loads_new_row _ _ _ _ Hok) as Hlic.
  destruct (snd (activate current today key st)) as [rows lic].
  cbn [_license] in Hlic. subst lic.
  apply (is_valid_elsewhere other day rows _ (MachineFingerprint.generate current)
           (VDate (today + LicensePlans.duration_days
                              (config_of_plan (plan_of_key key)))));
    first [reflexivity | apply generate_nonempty | exact Hdiff].
Qed.

Lemma activated_license_invalid_elsewhere_witness :
  is_valid host_laptop 739001 activated_pc = inr false.
Proof.
  apply (activated_license_invalid_elsewhere host_pc host_laptop 739000 pro_key
           (LState [] None) 739001).
  - vm_compute. reflexivity.
  - intros H. vm_compute in H. discriminate H.
Defined.

(** ** Issuing keys *)

Lemma class_is_alnum (c : ascii) : is_AZ09 c = true -> is_alnum c = true.
Proof. by_cases_on_char c. Qed.

Lemma plan_code_cases (plan : string) :
  let code := default "BASI" (plan_codes_of_plan !! plan) in
  (plan = "TRIAL" /\ code = "TRIA") \/ (plan = "BASIC" /\ code = "BASI")
  \/ (plan = "PRO" /\ code = "PROF") \/ (plan = "ENTERPRISE" /\ code = "ENTR")
  \/ (~ In plan ["TRIAL"; "BASIC"; "PRO"; "ENTERPRISE"] /\ code = "BASI").
Proof.
  cbn zeta. unfold plan_codes_of_plan. cbn [list_to_map foldr].
  destruct (decide (plan = "TRIAL")) as [->|H1]; [left; split; reflexivity|].
  destruct (decide (plan = "BASIC")) as [->|H2]; [right; left; split; reflexivity|].
  destruct (decide (plan = "PRO")) as [->|H3];
    [right; right; left; split; reflexivity|].
  destruct (decide (plan = "ENTERPRISE")) as [->|H4];
    [right; right; right; left; split; reflexivity|].
  right; right; right; right. split.
  - cbn [In]. intuition congruence.
  - unfold LicensePlans.TRIAL, LicensePlans.BASIC, LicensePlans.PRO,
      LicensePlans.ENTERPRISE.
    do 4 (rewrite lookup_insert_ne by (intros E; symmetry in E; contradiction)).
    now rewrite lookup_empty.
Qed.

Lemma generated_key_groups (rnd plan : string) :
  String.length rnd = 12%nat ->
  forallb is_AZ09 (PyStr.chars rnd) = true ->
  exists g2 g3 g4,
    generate_license_key rnd plan
    = default "BASI" (plan_codes_of_plan !! plan)
      +:+ "-" +:+ g2 +:+ "-" +:+ g3 +:+ "-" +:+ g4
    /\ is_group g2 = true /\ is_group g3 = true /\ is_group g4 = true.
Proof.
  intros Hlen Hall.
  destruct rnd as [|c1 [|c2 [|c3 [|c4 [|c5 [|c6 [|c7 [|c8 [|c9 [|c10 [|c11 [|c12 [|x rnd]]]]]]]]]]]]];
    try discriminate Hlen.
  cbn [PyStr.chars list_ascii_of_string forallb] in Hall.
  repeat (apply andb_true_iff in Hall as [?%class_is_alnum Hall]).
  exists (String c1 (String c2 (String c3 (String c4 "")))),
         (String c5 (String c6 (String c7 (String c8 "")))),
         (String c9 (String c10 (String c11 (String c12 "")))).
  split; [|repeat split; now apply group_of_chars].
  unfold generate_license_key.
  destruct (plan_code_cases plan) as [[_ ->]|[[_ ->]|[[_ ->]|[[_ ->]|[_ ->]]]]];
    reflexivity.
Qed.

(** X7. A key that [generate_license_key] issues for a plan, from twelve
    random upper-case letters and digits, has the key shape, passes the
    format check and decodes to the plan it was issued for; a plan name
    that is none of the four gets a BASIC key. *)
Theorem generated_key_decodes_to_its_plan (rnd plan : string) :
  String.length rnd = 12%nat ->
  forallb is_AZ09 (PyStr.chars rnd) = true ->
  let key := generate_license_key rnd plan in
  key_shape key = true
  /\ _validate_key_format key = true
  /\ (In plan ["TRIAL"; "BASIC"; "PRO"; "ENTERPRISE"] ->
      _decode_license_key key = Some {["plan" := VText plan]})
  /\ (~ In plan ["TRIAL"; "BASIC"; "PRO"; "ENTERPRISE"] ->
      _decode_license_key key = Some {["plan" := VText "BASIC"]}).
Proof.
  intros Hlen Hall key.
  destruct (generated_key_groups rnd plan Hlen Hall)
    as (g2 & g3 & g4 & Hkey & H2 & H3 & H4).
  fold key in Hkey.
  assert (Hcode : (In plan ["TRIAL"; "BASIC"; "PRO"; "ENTERPRISE"]
                   /\ is_group (default "BASI" (plan_codes_of_plan !! plan)) = true
                   /\ plan_codes !! default "BASI" (plan_codes_of_plan !! plan)
                      = Some plan)
                  \/ (~ In plan ["TRIAL"; "BASIC"; "PRO"; "ENTERPRISE"]
                      /\ is_group (default "BASI" (plan_codes_of_plan !! plan)) = true
                      /\ plan_codes !! default "BASI" (plan_codes_of_plan !! plan)
                         = Some "BASIC")).
  { destruct (plan_code_cases plan) as [[-> ->]|[[-> ->]|[[-> ->]|[[-> ->]|[Hn ->]]]]];
      [left | left | left | left | right];
      (split; [first [exact Hn | cbn [In]; auto 6] | split; reflexivity]). }
  assert (Hshape : key_shape key = true).
  { rewrite Hkey. apply groups_key_shape; tauto. }
  assert (Hplan : plan_code_of key = default "BASI" (plan_codes_of_plan !! plan)).
  { unfold plan_code_of. rewrite Hkey.
    destruct (plan_code_cases plan) as [[_ ->]|[[_ ->]|[[_ ->]|[[_ ->]|[_ ->]]]]];
      reflexivity. }
  split; [exact Hshape|]. split; [now apply shape_accepted|].
  rewrite (wellformed_decoded key Hshape), Hplan.
  destruct Hcode as [(Hin & _ & ->) | (Hn & _ & ->)]; split; intros H;
    (reflexivity || contradiction).
Qed.

Lemma generated_key_decodes_to_its_plan_witness :
  _decode_license_key (generate_license_key "7Q2MZ0X4K9A1" "ENTERPRISE")
  = Some {["plan" := VText "ENTERPRISE"]}.
Proof.
  destruct (generated_key_decodes_to_its_plan "7Q2MZ0X4K9A1" "ENTERPRISE")
    as (_ & _ & H & _); [reflexivity | reflexivity |].
  apply H. cbn [In]. auto 6.
Defined.

(** ** Trials *)

Lemma activate_commit_fresh (current : host) (today : Z) (key : string)
      (d : row) (st : lstate) :
  _validate_key_format key = true ->
  _decode_license_key key = Some d ->
  (forall r, In r (license_rows st) -> key_of r <> VText key) ->
  activate_commit current today key st
  = (inr tt,
     LState (map deactivated (license_rows st)
             ++ [new_license_row current today key d
                                 (map deactivated (license_rows st))])
            (_license st)).
Proof.
  intros Hv Hd Hfresh. rewrite (activate_commit_accepted _ _ _ _ _ Hv Hd).
  now rewrite (find_key_none _ _ Hfresh), (key_not_taken _ _ Hfresh).
Qed.

(** X8. [start_trial], with a random part that gives a key the table does
    not hold, deactivates whatever the table holds, earlier trials
    included, and inserts an active TRIAL record for one user, with the
    three trial modules, expiring 30 days later; the license is then valid
    on this machine through day 37.  The clock stands where days 30 and 37
    are dates. *)
Theorem start_trial_inserts_trial_record
        (current : host) (today : Z) (rnd : string) (st : lstate) :
  String.length rnd = 12%nat ->
  forallb is_AZ09 (PyStr.chars rnd) = true ->
  (forall r, In r (license_rows st) ->
             key_of r <> VText (generate_license_key rnd "TRIAL")) ->
  is_date (today + 30) = true ->
  is_date (today + 37) = true ->
  let st' := snd (start_trial current today rnd st) in
  exists new : row,
    license_rows st' = map deactivated (license_rows st) ++ [new]
    /\ count_active (license_rows st') = 1%nat
    /\ new !! "license_key" = Some (VText (generate_license_key rnd "TRIAL"))
    /\ new !! "plan_type" = Some (VText "TRIAL")
    /\ new !! "max_users" = Some (VInt 1)
    /\ new !! "enabled_modules" = Some (VJson ["dashboard"; "billing"; "inventory"])
    /\ new !! "activation_date" = Some (VDate today)
    /\ new !! "expiry_date" = Some (VDate (today + 30))
    /\ new !! "is_active" = Some (VInt 1)
    /\ forall day, is_valid current day st' = inr (day <=? today + 37)%Z.
Proof.
  intros Hlen Hall Hfresh Hexpiry Hlast st'. unfold start_trial in st'.
  fold LicensePlans.TRIAL in Hfresh.
  set (key := generate_license_key rnd LicensePlans.TRIAL) in *.
  assert (Hgen : _validate_key_format key = true
                 /\ _decode_license_key key = Some {["plan" := VText "TRIAL"]}).
  { destruct (generated_key_groups rnd "TRIAL" Hlen Hall)
      as (g2 & g3 & g4 & Hkey & H2 & H3 & H4).
    change (default "BASI" (plan_codes_of_plan !! "TRIAL")) with "TRIA" in Hkey.
    fold LicensePlans.TRIAL key in Hkey.
    assert (Hshape : key_shape key = true)
      by (rewrite Hkey; now apply groups_key_shape).
    split; [now apply shape_accepted|].
    rewrite (wellformed_decoded key Hshape). unfold plan_code_of.
    now rewrite Hkey. }
  destruct Hgen as [Hv Hd].
  pose proof (activate_commit_fresh current today key _ st Hv Hd Hfresh) as E.
  assert (Hok : fst (activate_commit current today key st) = inr tt)
    by now rewrite E.
  assert (Hlic : _license st'
                 = Some (<["modules_list" := VList ["dashboard"; "billing"; "inventory"]]>
                           (new_license_row current today key
                              {["plan" := VText "TRIAL"]}
                              (map deactivated (license_rows st))))).
  { unfold st'. rewrite (activate_state_after_commit _ _ _ _ Hok), E. cbn [snd].
    now rewrite (load_after_commit _ _ _ ["dashboard"; "billing"; "inventory"]). }
  exists (new_license_row current today key {["plan" := VText "TRIAL"]}
                          (map deactivated (license_rows st))).
  split; [unfold st'; now rewrite activate_keeps_commit_rows, E|].
  split; [now apply activate_leaves_one_active|].
  do 7 (split; [reflexivity|]).
  intros day. destruct st' as [rows lic]. cbn [_license] in Hlic. subst lic.
  assert (Hlast' : is_date (today + 30 + 7) = true)
    by (now replace (today + 30 + 7)%Z with (today + 37)%Z by lia).
  rewrite (is_valid_of_fields current day (today + 30) 7 rows _
             (MachineFingerprint.generate current)); try reflexivity;
    try assumption.
  rewrite String.eqb_refl, andb_false_r. do 2 f_equal. lia.
Qed.

Lemma start_trial_inserts_trial_record_witness :
  count_active
    (license_rows (snd (start_trial host_pc 739400 "7Q2MZ0X4K9A1" activated_pc)))
  = 1%nat
  /\ is_valid host_pc 739437
              (snd (start_trial host_pc 739400 "7Q2MZ0X4K9A1" activated_pc))
     = inr true.
Proof.
  destruct (start_trial_inserts_trial_record host_pc 739400 "7Q2MZ0X4K9A1" activated_pc)
    as (new & _ & Hcount & H); [reflexivity | reflexivity | | reflexivity | reflexivity |].
  - rewrite activated_pc_rows. intros r [<-|[]] E. vm_compute in E. discriminate E.
  - split; [exact Hcount|]. apply H.
Defined.

(** ** The module guard *)

(** X9. After a committed activation, a function guarded by
    [require_module] runs on the days the license is valid, when the plan
    lists the module; otherwise the guard raises [LicenseError] and the
    function is not run.  The clock stands where the expiry day and the end
    of its grace are dates. *)
Theorem guarded_call_after_activation
        {A} (current : host) (today : Z) (key : string) (st : lstate)
        (day : Z) (module : string) (func : py lstate A) :
  fst (activate_commit current today key st) = inr tt ->
  let cfg := config_of_plan (plan_of_key key) in
  let st' := snd (activate current today key st) in
  is_date (today + LicensePlans.duration_days cfg) = true ->
  is_date (today + LicensePlans.duration_days cfg + 7) = true ->
  require_module current day module func st'
  = if (day <=? today + LicensePlans.duration_days cfg + 7)%Z
    then if existsb (String.eqb module) (LicensePlans.modules cfg)
         then func st'
         else (inl (LicenseError ("Module '" +:+ module
                                  +:+ "' not included in your license plan")), st')
    else (inl (LicenseError "License expired or invalid"), st').
Proof.
  intros Hok cfg st' Hexpiry Hlast.
  pose proof (activate_loads_new_row _ _ _ _ Hok) as Hlic. fold cfg st' in Hlic.
  assert (Hvalid : is_valid current day st'
                   = inr (day <=? today + LicensePlans.duration_days cfg + 7)%Z).
  { destruct st' as [rows lic]. cbn [_license] in Hlic. subst lic.
    rewrite (is_valid_of_fields current day
               (today + LicensePlans.duration_days cfg) 7 rows _
               (MachineFingerprint.generate current)); try reflexivity;
      try assumption.
    now rewrite String.eqb_refl, andb_false_r. }
  unfold require_module, is_module_enabled. rewrite Hvalid.
  destruct (day <=? today + LicensePlans.duration_days cfg + 7)%Z; [|reflexivity].
  unfold get_enabled_modules, no_license. rewrite Hlic.
  rewrite (dict_truthy_lookup _ "modules_list" (VList (LicensePlans.modules cfg)))
    by apply lookup_insert_eq.
  cbn [negb default from_option id]. unfold get_or. rewrite lookup_insert_eq.
  destruct (existsb _ _); reflexivity.
Qed.

Lemma guarded_call_after_activation_witness :
  require_module host_pc 739100 "users" (ret 1%Z) activated_pc
  = (inl (LicenseError "Module 'users' not included in your license plan"), activated_pc)
  /\ require_module host_pc 739100 "reports" (ret 1%Z) activated_pc
     = (inr 1%Z, activated_pc).
Proof.
  assert (Hok : fst (activate_commit host_pc 739000 pro_key (LState [] None)) = inr tt)
    by (vm_compute; reflexivity).
  assert (Hexpiry : is_date (739000 + LicensePlans.duration_days
                                        (config_of_plan (plan_of_key pro_key))) = true)
    by (vm_compute; reflexivity).
  assert (Hlast : is_date (739000 + LicensePlans.duration_days
                                      (config_of_plan (plan_of_key pro_key)) + 7) = true)
    by (vm_compute; reflexivity).
  split.
  - exact (guarded_call_after_activation host_pc 739000 pro_key (LState [] None)
             739100 "users" (ret 1%Z) Hok Hexpiry Hlast).
  - exact (guarded_call_after_activation host_pc 739000 pro_key (LState [] None)
             739100 "reports" (ret 1%Z) Hok Hexpiry Hlast).
Defined.

(** ** Revocation and start-up *)

(** X10. [check_remote_revocation] never takes effect: whatever the URL,
    the reply and the state, it returns [False], leaves the table and the
    manager as they were, and the license is as valid afterwards as it was
    before. *)
Theorem remote_revocation_never_takes_effect
        (current : host) (today : Z) (url : option string) (reply : http_reply)
        (st : lstate) :
  fst (check_remote_revocation url reply st) = inr false
  /\ snd (check_remote_revocation url reply st) = st
  /\ is_valid current today (snd (check_remote_revocation url reply st))
     = is_valid current today st.
Proof.
  pose proof (check_remote_revocation_changes_nothing url reply st) as E.
  split; [now rewrite E|]. split; now rewrite E.
Qed.

(** X11. At start-up the login screen is shown exactly when the license
    is valid, and the activation screen exactly when it is not; what the
    revocation feed answers has no influence, and the state is left as it
    was. *)
Theorem check_license_follows_is_valid
        (current : host) (today : Z) (reply : http_reply) (st : lstate) :
  check_license current today reply st
  = (match is_valid current today st with
     | inl e => inl e
     | inr true => inr ShowLogin
     | inr false => inr ShowActivation
     end, st).
Proof.
  unfold check_license.
  rewrite check_remote_revocation_changes_nothing.
  destruct (is_valid current today st) as [e|[]] eqn:E; cbn [snd]; rewrite E;
    reflexivity.
Qed.




(** ** Sessions *)

Lemma audit_log_appends (now : string) (uid : value) (action module : string)
      (nv : list (string * string)) (st : astate) :
  exists entry,
    AuditLog.log now uid action module nv st
    = (inr tt, AState (users st) (roles st) (permissions st)
                      (audit_logs st ++ [entry]) (session st))
    /\ get entry "user_id" = uid
    /\ get entry "action" = VText action.
Proof. eexists. split; [reflexivity|]. split; reflexivity. Qed.

Lemma update_last_login_spec (now : string) (id : value) (st : astate) :
  User.update_last_login now id st
  = (inr tt,
     AState (map (fun r => if Sql.eq (get r "id") id
                           then <["last_login" := VText now]> r else r) (users st))
            (roles st) (permissions st) (audit_logs st) (session st)).
Proof. reflexivity. Qed.

Lemma login_accepts
      (checkpw : string -> string -> exn + bool) (now : string) (st : astate)
      (username password : string) (u : row) (id rid : value) (h : string) :
  User.get_by_username username st = Some u ->
  u !! "id" = Some id ->
  u !! "password_hash" = Some (VText h) ->
  u !! "role_id" = Some rid ->
  truthy (get_or u "is_active" (VInt 1)) = true ->
  checkpw password h = inr true ->
  exists entry,
    login checkpw now username password st
    = (inr u,
       AState (map (fun r => if Sql.eq (get r "id") id
                             then <["last_login" := VText now]> r else r)
                   (users st))
              (roles st) (permissions st) (audit_logs st ++ [entry])
              (MkSession (Some u) rid
                         (get_or u "role_name" (VText "Unknown")) (VText now)))
    /\ get entry "user_id" = id
    /\ get entry "action" = VText "LOGIN_SUCCESS".
Proof.
  intros Hu Hid Hhash Hrid Hact Hpw.
  unfold login, bind, gets. rewrite Hu.
  rewrite (dict_truthy_lookup _ _ _ Hid), Hact. cbn [negb].
  unfold getitem, ret. rewrite Hhash. unfold verify_password, lift.
  rewrite Hpw. cbn [negb]. rewrite Hrid, Hid. unfold modify.
  rewrite update_last_login_spec.
  cbn [users roles permissions audit_logs session].
  destruct (audit_log_appends now id "LOGIN_SUCCESS" "auth" []
              (AState (map (fun r => if Sql.eq (get r "id") id
                                     then <["last_login" := VText now]> r else r)
                           (users st))
                      (roles st) (permissions st) (audit_logs st)
                      (MkSession (Some u) rid
                                 (get_or u "role_name" (VText "Unknown"))
                                 (VText now))))
    as (entry & -> & H1 & H2).
  exists entry. auto.
Qed.

(** X13. A login with the right password of an enabled user returns the
    user, fills the session with the user, its role id and role name,
    stamps [last_login] on that user's row and appends one LOGIN_SUCCESS
    entry to the audit trail; roles and permissions are untouched. *)
Theorem login_success
        (checkpw : string -> string -> exn + bool) (now : string) (st : astate)
        (username password : string) (u : row) (id rid : value) (h : string) :
  User.get_by_username username st = Some u ->
  u !! "id" = Some id ->
  u !! "password_hash" = Some (VText h) ->
  u !! "role_id" = Some rid ->
  truthy (get_or u "is_active" (VInt 1)) = true ->
  checkpw password h = inr true ->
  let st' := snd (login checkpw now username password st) in
  fst (login checkpw now username password st) = inr u
  /\ session st'
     = MkSession (Some u) rid (get_or u "role_name" (VText "Unknown")) (VText now)
  /\ users st'
     = map (fun r => if Sql.eq (get r "id") id
                     then <["last_login" := VText now]> r else r) (users st)
  /\ roles st' = roles st
  /\ permissions st' = permissions st
  /\ exists entry,
       audit_logs st' = audit_logs st ++ [entry]
       /\ get entry "user_id" = id
       /\ get entry "action" = VText "LOGIN_SUCCESS".
Proof.
  intros Hu Hid Hhash Hrid Hact Hpw st'.
  destruct (login_accepts checkpw now st username password u id rid h
              Hu Hid Hhash Hrid Hact Hpw) as (entry & E & H1 & H2).
  unfold st'. rewrite E.
  repeat (split; [reflexivity|]). exists entry. auto.
Qed.

Lemma login_success_witness :
  is_authenticated
    (session (snd (login toy_checkpw "2026-01-01T10:00:00" "asha" "s3cret" app_state)))
  = true.
Proof.
  destruct (login_success toy_checkpw "2026-01-01T10:00:00" app_state "asha" "s3cret"
              (<["role_name" := VText "Sales"]>
                 (list_to_map [("id", VInt 2); ("username", VText "asha");
                               ("password_hash", VText "$2b$s3cret");
                               ("role_id", VInt 4); ("is_active", VInt 1)]))
              (VInt 2) (VInt 4) "$2b$s3cret")
    as (_ & -> & _); reflexivity.
Defined.


(** X14. After a successful login the permission gate answers for the
    user's role: everything is granted when the role is named Admin, and
    otherwise the answer is the one the permission table gives for the
    user's role id. *)
Theorem login_then_check_permission
        (checkpw : string -> string -> exn + bool) (now : string) (st : astate)
        (username password : string) (u : row) (id rid : value) (h : string)
        (module action : string) :
  User.get_by_username username st = Some u ->
  u !! "id" = Some id ->
  u !! "password_hash" = Some (VText h) ->
  u !! "role_id" = Some rid ->
  truthy (get_or u "is_active" (VInt 1)) = true ->
  checkpw password h = inr true ->
  check_permission module action (snd (login checkpw now username password st))
  = if str_eq "Admin" (get_or u "role_name" (VText "Unknown")) then inr true
    else Permission.check_permission rid module action st.
Proof.
  intros Hu Hid Hhash Hrid Hact Hpw.
  destruct (login_accepts checkpw now st username password u id rid h
              Hu Hid Hhash Hrid Hact Hpw) as (entry & -> & _).
  unfold check_permission. cbn [snd session is_authenticated user negb role_name role_id].
  destruct (str_eq "Admin" _); reflexivity.
Qed.

Lemma login_then_check_permission_witness :
  check_permission "users" "can_delete"
    (snd (login toy_checkpw "2026-01-01T10:00:00" "admin" "admin123" app_state))
  = inr true
  /\ check_permission "billing" "can_edit"
       (snd (login toy_checkpw "2026-01-01T10:00:00" "asha" "s3cret" app_state))
     = inr false.
Proof.
  split.
  - rewrite (login_then_check_permission toy_checkpw "2026-01-01T10:00:00" app_state
               "admin" "admin123"
               (<["role_name" := VText "Admin"]>
                  (list_to_map [("id", VInt 1); ("username", VText "admin");
                                ("password_hash", VText "$2b$admin123");
                                ("role_id", VInt 1); ("is_active", VInt 1)]))
               (VInt 1) (VInt 1) "$2b$admin123"); reflexivity.
  - rewrite (login_then_check_permission toy_checkpw "2026-01-01T10:00:00" app_state
               "asha" "s3cret"
               (<["role_name" := VText "Sales"]>
                  (list_to_map [("id", VInt 2); ("username", VText "asha");
                                ("password_hash", VText "$2b$s3cret");
                                ("role_id", VInt 4); ("is_active", VInt 1)]))
               (VInt 2) (VInt 4) "$2b$s3cret"); reflexivity.
Defined.

(** X15. [logout] empties the session, be it empty or that of a user of
    the users table (as [login] leaves it); afterwards nobody is
    authenticated and the permission gate refuses every module and action,
    Admin's included. *)
Theorem logout_clears_session (now : string) (st : astate) (module action : string) :
  (forall u, user (session st) = Some u ->
             exists id r, u !! "id" = Some id /\ In r (users st)
                          /\ Sql.eq (get r "id") id = true) ->
  let st' := snd (logout now st) in
  fst (logout now st) = inr tt
  /\ session st' = clear
  /\ is_authenticated (session st') = false
  /\ check_permission module action st' = inr false
  /\ users st' = users st /\ permissions st' = permissions st.
Proof.
  intros Hid st'.
  assert (E : exists logs,
             logout now st
             = (inr tt, AState (users st) (roles st) (permissions st) logs clear)).
  { unfold logout, bind, gets.
    destruct (user (session st)) as [u|] eqn:Hu.
    - destruct (Hid u eq_refl) as (id & _ & Hidv & _). unfold getitem, ret. rewrite Hidv.
      destruct (audit_log_appends now id "LOGOUT" "auth" [] st) as (entry & -> & _).
      eexists. reflexivity.
    - eexists. reflexivity. }
  destruct E as [logs E]. unfold st'. rewrite E. repeat split; reflexivity.
Qed.

Lemma logout_clears_session_witness :
  check_permission "users" "can_view"
    (snd (logout "2026-01-01T11:00:00" (with_session admin_session app_state)))
  = inr false.
Proof.
  destruct (logout_clears_session "2026-01-01T11:00:00"
              (with_session admin_session app_state) "users" "can_view")
    as (_ & _ & _ & H & _).
  - intros u [= <-]. eexists _, _.
    split; [reflexivity | split; [left; reflexivity | reflexivity]].
  - exact H.
Defined.

(** ** The audit trail *)

Lemma user_row_wf_role_name (r : row) (v : value) :
  user_row_wf r -> user_row_wf (<["role_name" := v]> r).
Proof.
  intros (Hid & [h Hh] & Hrid). unfold user_row_wf.
  rewrite !lookup_insert_ne by discriminate. eauto.
Qed.

Lemma head_omap_in {A B} (f : A -> option B) (l : list A) (b : B) :
  head (omap f l) = Some b -> exists a, In a l /\ f a = Some b.
Proof.
  induction l as [|a l IH]; [discriminate|].
  simpl. destruct (f a) as [b'|] eqn:E.
  - simpl. intros [= <-]. exists a. split; [now left | exact E].
  - intros (a' & Hin & Ha')%IH. exists a'. split; [now right | exact Ha'].
Qed.

Lemma get_by_username_row (username : string) (st : astate) (u : row) :
  User.get_by_username username st = Some u ->
  exists r role,
    In r (users st) /\ u = <["role_name" := get role "name"]> r.
Proof.
  unfold User.get_by_username. intros (r & Hin & Hr)%head_omap_in.
  destruct (Sql.eq (get r "username") (VText username)); [|discriminate Hr].
  destruct (List.find _ (roles st)) as [role|]; [|discriminate Hr].
  injection Hr as <-. eauto.
Qed.

Lemma get_by_username_wf (username : string) (st : astate) (u : row) :
  users_wf st -> User.get_by_username username st = Some u -> user_row_wf u.
Proof.
  unfold users_wf. intros Hwf (r & role & Hin & ->)%get_by_username_row.
  apply user_row_wf_role_name.
  rewrite Forall_forall in Hwf. apply Hwf. now apply list_elem_of_In.
Qed.

(** X16. A login attempt on which [bcrypt.checkpw] gives a verdict,
    accepted or refused, appends exactly one entry to the audit trail,
    LOGIN_SUCCESS or LOGIN_FAILED; a refused attempt changes nothing else:
    users, roles, permissions and the session stay as they were.  The one
    other case is an enabled user on whose stored hash [checkpw] raises:
    the exception leaves [login] and nothing is written, no audit entry
    either. *)
Theorem login_attempts_are_audited
        (checkpw : string -> string -> exn + bool) (now : string) (st : astate)
        (username password : string) :
  users_wf st ->
  let st' := snd (login checkpw now username password st) in
  (exists u h e,
      User.get_by_username username st = Some u
      /\ u !! "password_hash" = Some (VText h)
      /\ checkpw password h = inl e
      /\ login checkpw now username password st = (inl e, st))
  \/ exists entry,
       audit_logs st' = audit_logs st ++ [entry]
       /\ ((exists u, fst (login checkpw now username password st) = inr u
                      /\ get entry "action" = VText "LOGIN_SUCCESS")
           \/ (exists msg, fst (login checkpw now username password st)
                           = inl (AuthenticationError msg)
                           /\ get entry "action" = VText "LOGIN_FAILED"
                           /\ users st' = users st /\ roles st' = roles st
                           /\ permissions st' = permissions st
                           /\ session st' = session st)).
Proof.
  intros Hwf st'. unfold st'. clear st'.
  destruct (User.get_by_username username st) as [u|] eqn:Hu.
  - destruct (get_by_username_wf _ _ _ Hwf Hu) as ([id Hid] & [h Hh] & [rid Hrid]).
    destruct (truthy (get_or u "is_active" (VInt 1))) eqn:Hact.
    + destruct (checkpw password h) as [e|[]] eqn:Hb.
      * left. exists u, h, e. repeat split; try assumption.
        unfold login, bind, gets. rewrite Hu.
        rewrite (dict_truthy_lookup _ _ _ Hid), Hact. cbn [negb].
        unfold getitem, ret. rewrite Hh. unfold verify_password, lift.
        now rewrite Hb.
      * right.
        destruct (login_accepts checkpw now st username password u id rid h
                    Hu Hid Hh Hrid Hact Hb) as (entry & -> & _ & Hentry).
        exists entry. split; [reflexivity|]. left. eauto.
      * right.
        destruct (audit_log_appends now id "LOGIN_FAILED" "auth"
                    [("reason", "invalid_password")] st) as (entry & E & _ & Hentry).
        exists entry. unfold login, bind, gets. rewrite Hu.
        rewrite (dict_truthy_lookup _ _ _ Hid), Hact. cbn [negb].
        unfold getitem, ret. rewrite Hh. unfold verify_password, lift.
        rewrite Hb. cbn [negb]. rewrite Hid, E. unfold raise. cbn [fst snd].
        split; [reflexivity|]. right. eexists. repeat split; eauto.
    + right.
      destruct (audit_log_appends now id "LOGIN_FAILED" "auth"
                  [("reason", "account_disabled")] st) as (entry & E & _ & Hentry).
      exists entry. unfold login, bind, gets. rewrite Hu.
      rewrite (dict_truthy_lookup _ _ _ Hid), Hact. cbn [negb].
      unfold getitem, ret. rewrite Hid, E. unfold raise. cbn [fst snd].
      split; [reflexivity|]. right. eexists. repeat split; eauto.
  - right.
    destruct (audit_log_appends now VNone "LOGIN_FAILED" "auth"
                [("username", username); ("reason", "user_not_found")] st)
      as (entry & E & _ & Hentry).
    exists entry. unfold login, bind, gets. rewrite Hu, E. unfold raise.
    cbn [fst snd]. split; [reflexivity|]. right. eexists. repeat split; eauto.
Qed.

Lemma app_state_wf : users_wf app_state.
Proof.
  unfold users_wf, app_state, users.
  repeat constructor; try (eexists; reflexivity).
Qed.

Lemma login_attempts_are_audited_witness :
  exists entry,
    audit_logs (snd (login toy_checkpw "2026-01-01T10:00:00" "asha" "guess" app_state))
    = [entry].
Proof.
  destruct (login_attempts_are_audited toy_checkpw "2026-01-01T10:00:00" app_state
              "asha" "guess" app_state_wf)
    as [(u & h & e & _ & _ & Hraise & _) | (entry & H & _)].
  - exfalso. unfold toy_checkpw in Hraise. discriminate Hraise.
  - exists entry. exact H.
Defined.

(** ** Changing a password *)

Lemma user_update_password (id : value) (h : string) (st : astate) :
  User.update id [("password_hash", VText h)] st
  = (inr (existsb (fun r => Sql.eq (get r "id") id) (users st)),
     AState (map (with_password_hash id h) (users st))
            (roles st) (permissions st) (audit_logs st) (session st)).
Proof. reflexivity. Qed.

(** X17. [change_password] is all or nothing: whenever it raises, the
    state is exactly as before, and it raises whenever the new password has
    fewer than six characters or the old password does not verify. *)
Theorem change_password_all_or_nothing
        (checkpw : string -> string -> exn + bool) (now : string)
        (hashpw : string -> string) (st : astate)
        (user_id : value) (old_password new_password : string) :
  (forall e, fst (change_password checkpw now hashpw user_id old_password new_password st)
             = inl e ->
             snd (change_password checkpw now hashpw user_id old_password new_password st)
             = st)
  /\ ((String.length new_password < 6)%nat ->
      exists e, fst (change_password checkpw now hashpw user_id old_password
                                     new_password st) = inl e)
  /\ (forall r h, User.get_by_id user_id st = Some r ->
                  r !! "password_hash" = Some (VText h) ->
                  checkpw old_password h = inr false ->
                  fst (change_password checkpw now hashpw user_id old_password
                                       new_password st)
                  = inl (AuthenticationError "Current password is incorrect")).
Proof.
  split; [|split].
  - intros e. unfold change_password, bind, gets, raise, getitem, verify_password, lift, ret.
    destruct (User.get_by_id user_id st) as [r|]; [|reflexivity].
    destruct (negb (dict_truthy r)); [reflexivity|].
    destruct (r !! "password_hash") as [[]|]; try reflexivity.
    destruct (checkpw old_password s) as [e'|[]]; try reflexivity.
    cbn [negb]. destruct (String.length new_password <? 6)%nat; [reflexivity|].
    rewrite user_update_password.
    destruct (audit_log_appends now user_id "PASSWORD_CHANGED" "auth" []
                (AState (map (with_password_hash user_id (hash_password hashpw new_password))
                             (users st))
                        (roles st) (permissions st) (audit_logs st) (session st)))
      as (entry & -> & _).
    discriminate.
  - intros Hlen%Nat.ltb_lt.
    unfold change_password, bind, gets, raise, getitem, verify_password, lift, ret.
    destruct (User.get_by_id user_id st) as [r|]; [|eauto].
    destruct (negb (dict_truthy r)); [eauto|].
    destruct (r !! "password_hash") as [[]|]; eauto.
    destruct (checkpw old_password s) as [e'|[]]; eauto.
    cbn [negb]. rewrite Hlen. eauto.
  - intros r h Hr Hh Hpw.
    unfold change_password, bind, gets, raise, getitem, verify_password, lift, ret.
    rewrite Hr, (dict_truthy_lookup _ _ _ Hh), Hh. cbn [negb]. now rewrite Hpw.
Qed.

Lemma change_password_all_or_nothing_witness :
  snd (change_password toy_checkpw "2026-01-01T10:00:00" toy_hashpw
                       (VInt 2) "s3cret" "abc" app_state) = app_state.
Proof.
  destruct (change_password_all_or_nothing toy_checkpw "2026-01-01T10:00:00" toy_hashpw
              app_state (VInt 2) "s3cret" "abc") as (Hsame & Hshort & _).
  destruct Hshort as [e He]; [cbn; lia|].
  exact (Hsame e He).
Defined.

Lemma with_password_hash_role_name (id : value) (h : string) (r : row) (v : value) :
  with_password_hash id h (<["role_name" := v]> r)
  = <["role_name" := v]> (with_password_hash id h r).
Proof.
  unfold with_password_hash. rewrite get_insert_ne by discriminate.
  destruct (Sql.eq (get r "id") id); [|reflexivity].
  apply insert_insert_ne. discriminate.
Qed.

Lemma get_by_username_after_password_change
      (username : string) (id : value) (h : string) (st : astate) (logs : list row) :
  User.get_by_username username
    (AState (map (with_password_hash id h) (users st)) (roles st) (permissions st)
            logs (session st))
  = with_password_hash id h <$> User.get_by_username username st.
Proof.
  unfold User.get_by_username. cbn [users roles].
  induction (users st) as [|r rows IH]; [reflexivity|].
  cbn [map]. simpl omap.
  assert (Hname : get (with_password_hash id h r) "username" = get r "username").
  { unfold with_password_hash. destruct (Sql.eq (get r "id") id); [|reflexivity].
    apply get_insert_ne. discriminate. }
  assert (Hrole : get (with_password_hash id h r) "role_id" = get r "role_id").
  { unfold with_password_hash. destruct (Sql.eq (get r "id") id); [|reflexivity].
    apply get_insert_ne. discriminate. }
  rewrite Hname, Hrole.
  destruct (Sql.eq (get r "username") (VText username)); [|exact IH].
  destruct (List.find _ (roles st)) as [role|]; [|exact IH].
  simpl. now rewrite with_password_hash_role_name.
Qed.

Lemma login_rejects_password
      (checkpw : string -> string -> exn + bool) (now : string) (st : astate)
      (username password : string) (u : row) (id : value) (h : string) :
  User.get_by_username username st = Some u ->
  u !! "id" = Some id ->
  truthy (get_or u "is_active" (VInt 1)) = true ->
  u !! "password_hash" = Some (VText h) ->
  checkpw password h = inr false ->
  fst (login checkpw now username password st)
  = inl (AuthenticationError "Invalid username or password").
Proof.
  intros Hu Hid Hact Hh Hpw. unfold login, bind, gets. rewrite Hu.
  rewrite (dict_truthy_lookup _ _ _ Hid), Hact. cbn [negb].
  unfold getitem, ret. rewrite Hh. unfold verify_password, lift.
  rewrite Hpw. cbn [negb]. rewrite Hid.
  destruct (audit_log_appends now id "LOGIN_FAILED" "auth"
              [("reason", "invalid_password")] st) as (entry & -> & _).
  reflexivity.
Qed.

Lemma change_password_accepts
      (checkpw : string -> string -> exn + bool) (now : string)
      (hashpw : string -> string) (st : astate)
      (user_id : value) (old_password new_password : string) (r : row) (h : string) :
  User.get_by_id user_id st = Some r ->
  r !! "password_hash" = Some (VText h) ->
  checkpw old_password h = inr true ->
  (6 <= String.length new_password)%nat ->
  exists entry,
    change_password checkpw now hashpw user_id old_password new_password st
    = (inr true,
       AState (map (with_password_hash user_id (hashpw new_password)) (users st))
              (roles st) (permissions st) (audit_logs st ++ [entry]) (session st))
    /\ get entry "action" = VText "PASSWORD_CHANGED".
Proof.
  intros Hr Hh Hpw Hlen.
  unfold change_password, bind, gets, raise, getitem, verify_password, lift, ret.
  rewrite Hr, (dict_truthy_lookup _ _ _ Hh), Hh. cbn [negb]. rewrite Hpw. cbn [negb].
  apply Nat.ltb_ge in Hlen. rewrite Hlen, user_update_password.
  unfold hash_password.
  destruct (audit_log_appends now user_id "PASSWORD_CHANGED" "auth" []
              (AState (map (with_password_hash user_id (hashpw new_password)) (users st))
                      (roles st) (permissions st) (audit_logs st) (session st)))
    as (entry & -> & _ & Hentry).
  exists entry. auto.
Qed.

(** X18. After [change_password] succeeded for a user, that user logs in
    with the new password, and a password the new hash does not verify,
    such as the old one, is refused. *)
Theorem change_password_then_login
        (checkpw : string -> string -> exn + bool) (now : string)
        (hashpw : string -> string) (st : astate)
        (user_id : value) (old_password new_password username : string)
        (r u : row) (h : string) (rid : value) :
  User.get_by_id user_id st = Some r ->
  r !! "password_hash" = Some (VText h) ->
  checkpw old_password h = inr true ->
  (6 <= String.length new_password)%nat ->
  User.get_by_username username st = Some u ->
  u !! "id" = Some user_id ->
  Sql.eq user_id user_id = true ->
  u !! "role_id" = Some rid ->
  truthy (get_or u "is_active" (VInt 1)) = true ->
  checkpw new_password (hashpw new_password) = inr true ->
  let st1 := snd (change_password checkpw now hashpw user_id
                                  old_password new_password st) in
  fst (change_password checkpw now hashpw user_id old_password new_password st)
  = inr true
  /\ fst (login checkpw now username new_password st1)
     = inr (<["password_hash" := VText (hashpw new_password)]> u)
  /\ forall other,
       checkpw other (hashpw new_password) = inr false ->
       fst (login checkpw now username other st1)
       = inl (AuthenticationError "Invalid username or password").
Proof.
  intros Hr Hh Hpw Hlen Hu Hid Hself Hrid Hact Hnew st1.
  destruct (change_password_accepts checkpw now hashpw st user_id old_password
              new_password r h Hr Hh Hpw Hlen) as (entry & E & _).
  unfold st1. rewrite E. cbn [fst snd]. split; [reflexivity|].
  set (st' := AState _ _ _ _ _).
  assert (Hu' : User.get_by_username username st'
                = Some (<["password_hash" := VText (hashpw new_password)]> u)).
  { unfold st'. rewrite get_by_username_after_password_change, Hu. cbn [fmap option_fmap option_map].
    unfold with_password_hash, get, get_or. now rewrite Hid, Hself. }
  assert (Hid' : <["password_hash" := VText (hashpw new_password)]> u !! "id"
                 = Some user_id) by now rewrite lookup_insert_ne.
  assert (Hrid' : <["password_hash" := VText (hashpw new_password)]> u !! "role_id"
                  = Some rid) by now rewrite lookup_insert_ne.
  assert (Hact' : truthy (get_or (<["password_hash" := VText (hashpw new_password)]> u)
                                 "is_active" (VInt 1)) = true).
  { unfold get_or in *. now rewrite lookup_insert_ne. }
  split.
  - destruct (login_accepts checkpw now st' username new_password _ user_id rid
                (hashpw new_password) Hu' Hid' (lookup_insert_eq _ _ _) Hrid' Hact' Hnew)
      as (entry' & -> & _). reflexivity.
  - intros other Hother.
    apply (login_rejects_password checkpw now st' username other _ user_id
             (hashpw new_password) Hu' Hid' Hact' (lookup_insert_eq _ _ _) Hother).
Qed.

Lemma change_password_then_login_witness :
  fst (login toy_checkpw "2026-01-01T10:00:00" "asha" "n3wpass"
         (snd (change_password toy_checkpw "2026-01-01T10:00:00" toy_hashpw
                               (VInt 2) "s3cret" "n3wpass" app_state)))
  = inr (<["password_hash" := VText "$2b$n3wpass"]>
           (<["role_name" := VText "Sales"]>
              (list_to_map [("id", VInt 2); ("username", VText "asha");
                            ("password_hash", VText "$2b$s3cret"); ("role_id", VInt 4);
                            ("is_active", VInt 1)]))).
Proof.
  eapply (change_password_then_login toy_checkpw "2026-01-01T10:00:00" toy_hashpw
            app_state (VInt 2) "s3cret" "n3wpass" "asha" _ _ "$2b$s3cret" (VInt 4));
    try reflexivity.
  cbn. lia.
Defined.


(** ** Accessible modules *)

Lemma dict_set_fresh {V} (k : value) (v : V) (d : list (value * V)) :
  ~ In k (map fst d) -> dict_set k v d = d ++ [(k, v)].
Proof.
  induction d as [|[k' v'] d IH]; intros Hk; [reflexivity|].
  cbn [dict_set]. rewrite bool_decide_eq_false_2.
  - cbn [app]. f_equal. apply IH. intros H. apply Hk. now right.
  - intros ->. apply Hk. now left.
Qed.

Lemma fold_dict_set_fresh {V} (k : row -> value) (v : row -> V)
      (rows : list row) (acc : list (value * V)) :
  NoDup (map fst acc ++ map k rows) ->
  fold_left (fun result perm => dict_set (k perm) (v perm) result) rows acc
  = acc ++ map (fun perm => (k perm, v perm)) rows.
Proof.
  revert acc. induction rows as [|r rows IH]; intros acc Hnd.
  - now rewrite app_nil_r.
  - cbn [fold_left map]. rewrite dict_set_fresh.
    + rewrite IH.
      * now rewrite <- app_assoc.
      * rewrite map_app. cbn [map fst]. now rewrite <- app_assoc.
    + apply NoDup_app in Hnd as (_ & Hdisj & _). intros Hin.
      apply (Hdisj (k r)); [now apply list_elem_of_In|]. cbn [map]. left.
Qed.

Lemma find_filter {A} (p q : A -> bool) (l : list A) :
  List.find (fun x => q x && p x) l = List.find p (List.filter q l).
Proof.
  induction l as [|x l IH]; [reflexivity|].
  cbn [List.find List.filter]. destruct (q x); cbn [andb List.find]; [|exact IH].
  destruct (p x); [reflexivity | exact IH].
Qed.

Lemma find_unique_key (k : row -> value) (key : value) (rows : list row) (r : row) :
  NoDup (map k rows) -> In r rows -> k r = key -> Sql.eq key key = true ->
  List.find (fun x => Sql.eq (k x) key) rows = Some r.
Proof.
  induction rows as [|x rows IH]; intros Hnd Hin Hkey Hrefl; [destruct Hin|].
  cbn [map] in Hnd. apply NoDup_cons in Hnd as [Hx Hnd]. cbn [List.find].
  destruct Hin as [-> | Hin].
  - now rewrite Hkey, Hrefl.
  - destruct (Sql.eq (k x) key) eqn:E; [|now apply IH].
    apply sql_eq_true in E. exfalso. apply Hx.
    rewrite E, <- Hkey. apply list_elem_of_In. now apply in_map.
Qed.

Lemma flags_can_view (perm : row) :
  default false (flags_of perm !! "can_view") = truthy (get perm "can_view").
Proof. reflexivity. Qed.

(** X19. For an authenticated session of a role other than Admin, a
    module is among the accessible modules exactly when the permission
    gate grants [can_view] on it, the permission table having one row per
    role and module. *)
Theorem accessible_modules_agree_with_gate (st : astate) (module : string) :
  is_authenticated (session st) = true ->
  role_name (session st) <> VText "Admin" ->
  NoDup (map (fun r => get r "module") (get_by_role (role_id (session st)) st)) ->
  In (VText module) (get_accessible_modules st)
  <-> check_permission module "can_view" st = inr true.
Proof.
  intros Hauth Hrole Hnd.
  unfold get_accessible_modules, get_user_permissions, check_permission.
  rewrite Hauth, (str_eq_false _ _ Hrole). cbn [negb].
  unfold Permission.check_permission.
  change (Sql.has_column permissions_columns "can_view") with true. cbn [negb].
  rewrite (find_filter (fun r => Sql.eq (get r "module") (VText module))
                       (fun r => Sql.eq (get r "role_id") (role_id (session st)))).
  fold (get_by_role (role_id (session st)) st).
  rewrite fold_dict_set_fresh by exact Hnd. cbn [app].
  set (rows := get_by_role (role_id (session st)) st) in *.
  split.
  - intros (mp & Hfst & Hmp%filter_In)%in_map_iff. destruct Hmp as [Hin Hview].
    apply in_map_iff in Hin as (r & <- & Hr). cbn [fst snd] in *.
    rewrite flags_can_view in Hview.
    rewrite (find_unique_key _ _ rows r Hnd Hr Hfst (sql_eq_text_refl module)).
    now rewrite Hview.
  - destruct (List.find _ rows) as [r|] eqn:Hfind; [|discriminate].
    intros [= Hview]. apply find_some in Hfind as [Hr Hmod%sql_eq_true].
    apply in_map_iff. exists (get r "module", flags_of r). split; [exact Hmod|].
    apply filter_In. split.
    + apply in_map_iff. now exists r.
    + cbn [snd]. now rewrite flags_can_view.
Qed.

Lemma accessible_modules_agree_with_gate_witness :
  In (VText "billing") (get_accessible_modules (with_session sales_session app_state)).
Proof.
  apply (accessible_modules_agree_with_gate
           (with_session sales_session app_state) "billing").
  - reflexivity.
  - discriminate.
  - vm_compute. apply NoDup_singleton.
  - vm_compute. reflexivity.
Defined.


(** ** Setting up the permissions of a role *)

Lemma find_snoc {A} (p : A -> bool) (l : list A) (x : A) :
  List.find p (l ++ [x]) =
  match List.find p l with
  | Some y => Some y
  | None => if p x then Some x else None
  end.
Proof.
  induction l as [|y l IH]; cbn [app List.find]; [reflexivity|].
  destruct (p y); [reflexivity | exact IH].
Qed.

Lemma find_filter_disjoint {A} (p q : A -> bool) (l : list A) :
  (forall x, p x = true -> q x = false) ->
  List.find p (List.filter (fun x => negb (q x)) l) = List.find p l.
Proof.
  intros H. induction l as [|x l IH]; [reflexivity|].
  cbn [List.filter List.find]. destruct (p x) eqn:Hp.
  - rewrite (H x Hp). cbn [negb List.find]. now rewrite Hp.
  - destruct (q x); cbn [negb List.find]; [exact IH | now rewrite Hp].
Qed.

Lemma find_filter_removed {A} (p : A -> bool) (l : list A) :
  List.find p (List.filter (fun x => negb (p x)) l) = None.
Proof.
  induction l as [|x l IH]; [reflexivity|].
  cbn [List.filter]. destruct (p x) eqn:Hp; cbn [negb List.find]; [exact IH|].
  now rewrite Hp.
Qed.

Lemma same_permission_key_disjoint (rid rid0 : value) (m m0 : string) (r : row) :
  rid <> rid0 \/ m <> m0 ->
  same_permission_key rid m r = true -> same_permission_key rid0 m0 r = false.
Proof.
  unfold same_permission_key. intros Hne [H1 H2]%andb_true_iff.
  apply sql_eq_true in H1, H2.
  destruct (Sql.eq (get r "role_id") rid0) eqn:E1; [|reflexivity].
  destruct (Sql.eq (get r "module") (VText m0)) eqn:E2; [|reflexivity].
  apply sql_eq_true in E1, E2. exfalso. destruct Hne as [Hne | Hne]; apply Hne; congruence.
Qed.

Lemma permission_row_flag (id : Z) (rid : value) (m : string)
      (p : gmap string bool) (a : string) :
  In a ACTIONS ->
  get (permission_row id rid m p) "role_id" = rid /\
  get (permission_row id rid m p) "module" = VText m /\
  truthy (get (permission_row id rid m p) a) = default false (p !! a).
Proof.
  intros Ha. split; [reflexivity|]. split; [reflexivity|].
  assert (Hget : get (permission_row id rid m p) a
                 = VInt (if default false (p !! a) then 1 else 0)).
  { cbn in Ha. destruct Ha as [<-|[<-|[<-|[<-|[<-|[]]]]]]; reflexivity. }
  rewrite Hget. now destruct (default false (p !! a)).
Qed.

Lemma actions_are_columns (a : string) :
  In a ACTIONS -> Sql.has_column permissions_columns a = true.
Proof. cbn. intros [<-|[<-|[<-|[<-|[<-|[]]]]]]; reflexivity. Qed.

Lemma insert_or_replace_accepts (n : Z) (m0 : string) (p0 : gmap string bool)
      (st : astate) :
  existsb (fun role => Sql.eq (get role "id") (VInt n)) (roles st) = true ->
  insert_or_replace_permission (VInt n) m0 p0 st =
  (inr tt,
   AState (users st) (roles st)
          (List.filter (fun r => negb (same_permission_key (VInt n) m0 r)) (permissions st)
           ++ [permission_row (Sql.next_id (permissions st)) (VInt n) m0 p0])
          (audit_logs st) (session st)).
Proof. intros H. unfold insert_or_replace_permission. now rewrite H. Qed.

Lemma check_permission_as_find (rid : value) (m a : string) (st : astate) :
  Permission.check_permission rid m a st =
  if negb (Sql.has_column permissions_columns a)
  then inl (OperationalError ("no such column: " +:+ a))
  else match List.find (same_permission_key rid m) (permissions st) with
       | Some r => inr (truthy (get r a))
       | None => inr false
       end.
Proof. reflexivity. Qed.

Lemma check_after_replace_same (n : Z) (m0 a : string) (p0 : gmap string bool)
      (st st1 : astate) :
  In a ACTIONS ->
  insert_or_replace_permission (VInt n) m0 p0 st = (inr tt, st1) ->
  Permission.check_permission (VInt n) m0 a st1 = inr (default false (p0 !! a)).
Proof.
  intros Ha H. unfold insert_or_replace_permission in H.
  destruct (existsb _ (roles st)); [|discriminate]. injection H as <-.
  rewrite check_permission_as_find, (actions_are_columns a Ha). cbn [negb permissions].
  rewrite find_snoc, find_filter_removed.
  destruct (permission_row_flag (Sql.next_id (permissions st)) (VInt n) m0 p0 a Ha)
    as (Hr & Hm & Hf).
  unfold same_permission_key at 1. rewrite Hr, Hm.
  cbn [Sql.eq]. rewrite Z.eqb_refl, String.eqb_refl. cbn [andb]. now rewrite Hf.
Qed.

Lemma check_after_replace_other (rid0 rid : value) (m0 m a : string)
      (p0 : gmap string bool) (st st1 : astate) :
  rid <> rid0 \/ m <> m0 ->
  insert_or_replace_permission rid0 m0 p0 st = (inr tt, st1) ->
  Permission.check_permission rid m a st1 = Permission.check_permission rid m a st.
Proof.
  intros Hne H. unfold insert_or_replace_permission in H.
  assert (Hst : st1 = AState (users st) (roles st)
            (List.filter (fun r => negb (same_permission_key rid0 m0 r)) (permissions st)
             ++ [permission_row (Sql.next_id (permissions st)) rid0 m0 p0])
            (audit_logs st) (session st)).
  { destruct rid0; try discriminate;
      (destruct (existsb _ (roles st)); [|discriminate]); now injection H as <-. }
  subst st1. rewrite !check_permission_as_find. cbn [permissions].
  destruct (negb (Sql.has_column permissions_columns a)); [reflexivity|].
  rewrite find_snoc.
  rewrite (find_filter_disjoint (same_permission_key rid m) (same_permission_key rid0 m0)).
  2: { intros x. now apply same_permission_key_disjoint. }
  destruct (List.find (same_permission_key rid m) (permissions st)); [reflexivity|].
  destruct (same_permission_key rid m (permission_row _ rid0 m0 p0)) eqn:E; [|reflexivity].
  exfalso. unfold same_permission_key in E. apply andb_true_iff in E as [E1 E2].
  apply sql_eq_true in E1, E2.
  assert (Hr : get (permission_row (Sql.next_id (permissions st)) rid0 m0 p0) "role_id" = rid0)
    by reflexivity.
  assert (Hm : get (permission_row (Sql.next_id (permissions st)) rid0 m0 p0) "module" = VText m0)
    by reflexivity.
  rewrite Hr in E1. rewrite Hm in E2. destruct Hne as [Hne|Hne]; apply Hne; congruence.
Qed.

(** X20. [setup_role_permissions] for an existing role, given a dict of
    modules, succeeds; afterwards [Permission.check_permission] answers,
    for every module of the dict and each of the five actions, the flag
    the dict gives (False when it gives none), whatever the table held
    before; the answers for other roles and for modules outside the dict
    are as before, and users, roles, audit log and session are
    untouched. *)
Theorem setup_role_permissions_round_trip
        (st : astate) (n : Z) (items : list (string * gmap string bool)) :
  existsb (fun role => Sql.eq (get role "id") (VInt n)) (roles st) = true ->
  NoDup (map fst items) ->
  exists st',
    setup_role_permissions (VInt n) items st = (inr tt, st') /\
    users st' = users st /\ roles st' = roles st /\
    audit_logs st' = audit_logs st /\ session st' = session st /\
    (forall m p a, In (m, p) items -> In a ACTIONS ->
       Permission.check_permission (VInt n) m a st' = inr (default false (p !! a))) /\
    (forall rid m a, rid <> VInt n \/ ~ In m (map fst items) ->
       Permission.check_permission rid m a st' = Permission.check_permission rid m a st).
Proof.
  intros Hrole Hnd. revert st Hrole.
  induction items as [|[m0 p0] rest IH]; intros st Hrole.
  - exists st. repeat split; try reflexivity. intros m p a [].
  - cbn [map fst] in Hnd. apply NoDup_cons in Hnd as [Hm0 Hnd].
    rewrite list_elem_of_In in Hm0.
    pose proof (insert_or_replace_accepts n m0 p0 st Hrole) as Hstep.
    set (st1 := AState (users st) (roles st) _ (audit_logs st) (session st)) in Hstep.
    destruct (IH Hnd st1 Hrole) as (st' & Hrun & Hu & Hr & Hal & Hs & Hset & Hframe).
    exists st'. split.
    { cbn [setup_role_permissions]. unfold bind. now rewrite Hstep. }
    split; [exact Hu|]. split; [exact Hr|]. split; [exact Hal|]. split; [exact Hs|].
    split.
    + intros m p a [Heq | Hin] Ha.
      * injection Heq as <- <-.
        rewrite (Hframe (VInt n) m0 a (or_intror Hm0)).
        exact (check_after_replace_same n m0 a p0 st st1 Ha Hstep).
      * exact (Hset m p a Hin Ha).
    + intros rid m a Hne.
      rewrite (Hframe rid m a).
      * apply (check_after_replace_other (VInt n) rid m0 m a p0 st st1); [|exact Hstep].
        destruct Hne as [Hne | Hne]; [now left | right].
        intros ->. apply Hne. now left.
      * destruct Hne as [Hne | Hne]; [now left | right].
        intros Hin. apply Hne. now right.
Qed.

Lemma setup_role_permissions_round_trip_witness :
  exists st',
    setup_role_permissions (VInt 4) sales_permissions app_state = (inr tt, st') /\
    users st' = users app_state /\ roles st' = roles app_state /\
    audit_logs st' = audit_logs app_state /\ session st' = session app_state /\
    (forall m p a, In (m, p) sales_permissions -> In a ACTIONS ->
       Permission.check_permission (VInt 4) m a st' = inr (default false (p !! a))) /\
    (forall rid m a, rid <> VInt 4 \/ ~ In m (map fst sales_permissions) ->
       Permission.check_permission rid m a st'
       = Permission.check_permission rid m a app_state).
Proof.
  apply (setup_role_permissions_round_trip app_state 4 sales_permissions).
  - reflexivity.
  - apply (bool_decide_unpack (NoDup (map fst sales_permissions))). vm_compute. exact I.
Defined.


(** ** A session from login to logout *)

Lemma logout_of_user (now : string) (st : astate) (u : row) (id : value) :
  user (session st) = Some u -> u !! "id" = Some id ->
  exists entry,
    logout now st
    = (inr tt, AState (users st) (roles st) (permissions st)
                      (audit_logs st ++ [entry]) clear)
    /\ get entry "user_id" = id /\ get entry "action" = VText "LOGOUT".
Proof.
  intros Hu Hid. unfold logout, bind, gets. rewrite Hu.
  unfold getitem, ret. rewrite Hid.
  destruct (audit_log_appends now id "LOGOUT" "auth" [] st) as (entry & -> & H1 & H2).
  exists entry. auto.
Qed.

(** X21. From login to logout: after a successful login a function
    wrapped by [require_auth] is run; [logout] then succeeds, and
    afterwards the wrapped function is refused with "Authentication
    required" without being run.  The audit trail has gained a
    LOGIN_SUCCESS and a LOGOUT entry of that user, in this order. *)
Theorem session_from_login_to_logout
        {A} (func : py astate A)
        (checkpw : string -> string -> exn + bool) (now now' : string) (st : astate)
        (username password : string) (u : row) (id rid : value) (h : string) :
  User.get_by_username username st = Some u ->
  u !! "id" = Some id ->
  u !! "password_hash" = Some (VText h) ->
  u !! "role_id" = Some rid ->
  truthy (get_or u "is_active" (VInt 1)) = true ->
  checkpw password h = inr true ->
  let st1 := snd (login checkpw now username password st) in
  let st2 := snd (logout now' st1) in
  require_auth func st1 = func st1
  /\ fst (logout now' st1) = inr tt
  /\ require_auth func st2
     = (inl (AuthenticationError "Authentication required"), st2)
  /\ exists e1 e2,
       audit_logs st2 = audit_logs st ++ [e1; e2]
       /\ get e1 "user_id" = id /\ get e1 "action" = VText "LOGIN_SUCCESS"
       /\ get e2 "user_id" = id /\ get e2 "action" = VText "LOGOUT".
Proof.
  intros Hu Hid Hhash Hrid Hact Hpw. cbv zeta.
  destruct (login_accepts checkpw now st username password u id rid h
              Hu Hid Hhash Hrid Hact Hpw) as (e1 & -> & Hu1 & Ha1).
  cbn [snd].
  match goal with |- context [logout now' ?s] =>
    destruct (logout_of_user now' s u id eq_refl Hid) as (e2 & -> & Hu2 & Ha2)
  end.
  cbn [fst snd users roles permissions audit_logs session].
  split; [reflexivity|]. split; [reflexivity|]. split; [reflexivity|].
  exists e1, e2. rewrite <- app_assoc. auto.
Qed.

Lemma session_from_login_to_logout_witness :
  require_auth (ret 7%Z)
    (snd (logout "2026-01-01T18:00:00"
            (snd (login toy_checkpw "2026-01-01T10:00:00" "asha" "s3cret" app_state))))
  = (inl (AuthenticationError "Authentication required"),
     snd (logout "2026-01-01T18:00:00"
            (snd (login toy_checkpw "2026-01-01T10:00:00" "asha" "s3cret" app_state)))).
Proof.
  destruct (session_from_login_to_logout (ret 7%Z) toy_checkpw
              "2026-01-01T10:00:00" "2026-01-01T18:00:00" app_state "asha" "s3cret"
              (<["role_name" := VText "Sales"]>
                 (list_to_map [("id", VInt 2); ("username", VText "asha");
                               ("password_hash", VText "$2b$s3cret");
                               ("role_id", VInt 4); ("is_active", VInt 1)]))
              (VInt 2) (VInt 4) "$2b$s3cret")
    as (_ & _ & H & _); [reflexivity..|exact H].
Defined.

(** ** Machine identifiers *)

(** X22. Both fingerprint functions return exactly 32 characters, all of
    them hexadecimal digits, on every machine; a stored fingerprint of any
    other length is accepted by neither [verify] nor
    [verify_fingerprint]. *)
Theorem fingerprints_have_32_hex_digits (h : host) :
  String.length (MachineFingerprint.generate h) = 32%nat
  /\ String.length (generate_fingerprint h) = 32%nat
  /\ PyStr.is_hex (MachineFingerprint.generate h) = true
  /\ PyStr.is_hex (generate_fingerprint h) = true
  /\ forall stored : string,
       String.length stored <> 32%nat ->
       MachineFingerprint.verify h stored = false
       /\ verify_fingerprint h stored = false.
Proof.
  split; [apply generate_length|]. split; [apply generate_fingerprint_length|].
  split; [|split].
  - unfold MachineFingerprint.generate. apply is_hex_prefix, hexdigest_is_hex.
  - unfold generate_fingerprint. apply is_hex_prefix, hexdigest_is_hex.
  - intros stored Hlen.
    unfold MachineFingerprint.verify, verify_fingerprint. split.
    + apply String.eqb_neq. intros E. apply Hlen. rewrite <- E. apply generate_length.
    + apply String.eqb_neq. intros E. apply Hlen. rewrite <- E.
      apply generate_fingerprint_length.
Qed.

(** X23. [generate_fingerprint] drops blank components before joining
    them, so it cannot tell which attribute a value came from: a machine
    named [x] with a blank architecture and a machine with a blank name and
    architecture [x], otherwise alike, get the same machine ID. *)
Theorem generate_fingerprint_forgets_positions (h : host) (x blank : string) :
  PyStr.nonempty (PyStr.strip blank) = false ->
  generate_fingerprint
    (Host x blank (processor h) (getnode h) (system h)
          (wmic_cpu h) (wmic_diskdrive h) (wmic_baseboard h))
  = generate_fingerprint
      (Host blank x (processor h) (getnode h) (system h)
            (wmic_cpu h) (wmic_diskdrive h) (wmic_baseboard h)).
Proof.
  intros Hblank. unfold generate_fingerprint. cbn [node machine].
  set (P := fun c : string => PyStr.nonempty (PyStr.strip c) = true).
  assert (Hswap : forall l : list string,
             filter P (x :: blank :: l) = filter P (blank :: x :: l)).
  { intros l. rewrite (filter_cons P x), (filter_cons P blank (x :: l)),
      (filter_cons P blank l), (filter_cons P x l).
    destruct (decide (P blank)) as [Hb|_]; [|reflexivity].
    unfold P in Hb. rewrite Hblank in Hb. discriminate Hb. }
  f_equal. f_equal. f_equal. apply Hswap.
Qed.

Lemma generate_fingerprint_forgets_positions_witness :
  generate_fingerprint (Host "x86_64" " " "" 1 "Linux" None None None)
  = generate_fingerprint (Host " " "x86_64" "" 1 "Linux" None None None).
Proof.
  apply (generate_fingerprint_forgets_positions host_pc "x86_64" " ").
  vm_compute. reflexivity.
Defined.
